(** * Nettigo Air Monitor client: a shallow embedding of
      [nettigo_air_monitor/__init__.py] and the properties of its parsing,
      stale-cache fallback, error translation and index derivation. *)

From stdpp Require Import base strings gmap list fin_maps.
From Stdlib Require Import ZArith Ascii DecimalString.

Local Open Scope Z_scope.

(** ** Exceptions and fallible computations *)

(** The Python exception classes that the client raises, catches or lets
    through.  The first group are builtins, the second the classes of the
    HTTP transport (aiohttp, asyncio) with [OtherError] standing for any
    class the client does not name, the third the client's own errors.

    Modelled from the spec: [exceptions.py] is not part of the sources; its
    five error kinds are those of the spec's taxonomy, each carrying the
    [status] detail it was constructed with. *)
Inductive exn : Type :=
  | KeyError (key : string)
  | TypeError
  | ValueError
  | AttributeError
  | OverflowError
  | ClientResponseError (status : Z)
  | ClientConnectorError
  | TimeoutError
  | OtherError (cls : string)
  | ApiError (status : string)
  | AuthFailedError (status : string)
  | CannotGetMacError (status : string)
  | InvalidSensorDataError (status : string)
  | NotRespondingError (status : string).

(** The error kinds of the client's own taxonomy. *)
Definition is_domain_error (e : exn) : bool :=
  match e with
  | ApiError _ | AuthFailedError _ | CannotGetMacError _
  | InvalidSensorDataError _ | NotRespondingError _ => true
  | _ => false
  end.

(** A computation either returns a value or raises. *)
Inductive res (A : Type) : Type :=
  | Ok (a : A)
  | Raise (e : exn).
Arguments Ok {A} a.
Arguments Raise {A} e.

#[global] Instance res_ret : MRet res := λ A, @Ok A.
#[global] Instance res_bind : MBind res := λ A B f m,
  match m with Ok a => f a | Raise e => Raise e end.

Definition of_option {A} (o : option A) (e : exn) : res A :=
  match o with Some a => Ok a | None => Raise e end.

Definition is_ok {A} (r : res A) : bool :=
  match r with Ok _ => true | Raise _ => false end.

(** The value of a computation, or [d] when it raised. *)
Definition from_res {A} (d : A) (r : res A) : A :=
  match r with Ok a => a | Raise _ => d end.

(** ** Strings *)

Definition ascii_lower (c : ascii) : ascii :=
  let n := N_of_ascii c in
  if ((65 <=? n) && (n <=? 90))%N then ascii_of_N (n + 32) else c.

(** [str.lower()], on the ASCII range. *)
Fixpoint str_lower (s : string) : string :=
  match s with
  | EmptyString => EmptyString
  | String c s' => String (ascii_lower c) (str_lower s')
  end.

(** [sub in s]. *)
Fixpoint str_contains (sub s : string) : bool :=
  String.prefix sub s ||
  match s with
  | EmptyString => false
  | String _ s' => str_contains sub s'
  end.

(** [s.replace(a, b)] for one-character [a] and [b]. *)
Fixpoint str_replace (a b : ascii) (s : string) : string :=
  match s with
  | EmptyString => EmptyString
  | String c s' =>
      String (if Ascii.eqb c a then b else c) (str_replace a b s')
  end.

(** The characters of a string, in order. *)
Fixpoint str_chars (s : string) : list ascii :=
  match s with
  | EmptyString => []
  | String c s' => c :: str_chars s'
  end.

(** [str(n)] for an integer. *)
Definition str_of_int (n : Z) : string :=
  NilZero.string_of_int (Z.to_int n).

(** ** Numbers

    Python floats are kept abstract: the client only converts to them,
    rounds them to one decimal and divides them by an integer.  The parsing
    of an integer literal by [int(s)] is abstract as well. *)
Class PyNum (float : Type) : Type := {
  (** [float(n)] for an integer; [None] is [OverflowError]. *)
  float_of_int : Z → option float;
  (** [float(s)] for a string; [None] is [ValueError]. *)
  float_of_str : string → option float;
  (** [round(x, 1)]. *)
  float_round1 : float → float;
  (** [x / n] for an integer [n]. *)
  float_div : float → Z → float;
  (** [bool(x)]. *)
  float_bool : float → bool;
  (** [int(x)] for a float. *)
  float_to_int : float → res Z;
  (** [int(s)] for a string; [None] is [ValueError]. *)
  int_of_str : string → option Z;
}.

Section Model.
Context {float : Type} {PN : PyNum float}.

(** A decoded JSON document, as [resp.json()] returns it; the entries of a
    dict are in insertion order. *)
#[warnings="-register-all"]
Inductive json : Type :=
  | JNull
  | JBool (b : bool)
  | JInt (n : Z)
  | JFloat (x : float)
  | JStr (s : string)
  | JList (items : list json)
  | JDict (entries : list (string * json)).

(** The values held by the flat sensor dictionary. *)
Inductive sval : Type :=
  | VFloat (x : float)
  | VInt (n : Z)
  | VStr (s : string).

Fixpoint dict_get (entries : list (string * json)) (k : string) : option json :=
  match entries with
  | [] => None
  | (k', v) :: rest => if String.eqb k' k then Some v else dict_get rest k
  end.

(** [bool(v)]. *)
Definition py_bool (v : json) : bool :=
  match v with
  | JNull => false
  | JBool b => b
  | JInt n => negb (n =? 0)
  | JFloat x => float_bool x
  | JStr s => negb (String.eqb s "")
  | JList items => match items with [] => false | _ => true end
  | JDict entries => match entries with [] => false | _ => true end
  end.

(** [v[k]] for a string [k]: only a dict can be subscripted by a string. *)
Definition py_getitem (v : json) (k : string) : res json :=
  match v with
  | JDict entries => of_option (dict_get entries k) (KeyError k)
  | _ => Raise TypeError
  end.

(** [k in v] for a dict [v]. *)
Definition dict_has (entries : list (string * json)) (k : string) : bool :=
  match dict_get entries k with Some _ => true | None => false end.

(** The items [for item in v] runs over. *)
Definition py_iter (v : json) : res (list json) :=
  match v with
  | JList items => Ok items
  | JDict entries => Ok (map (λ kv, JStr kv.1) entries)
  | JStr s => Ok (map (λ c, JStr (String c EmptyString)) (str_chars s))
  | _ => Raise TypeError
  end.

(** [v.lower()]: only strings have the method. *)
Definition py_lower (v : json) : res string :=
  match v with
  | JStr s => Ok (str_lower s)
  | _ => Raise AttributeError
  end.

(** [float(v)]. *)
Definition py_float (v : json) : res float :=
  match v with
  | JInt n => of_option (float_of_int n) OverflowError
  | JBool b => of_option (float_of_int (if b then 1 else 0)) OverflowError
  | JFloat x => Ok x
  | JStr s => of_option (float_of_str s) ValueError
  | _ => Raise TypeError
  end.

(** [int(v)]. *)
Definition py_int (v : json) : res Z :=
  match v with
  | JInt n => Ok n
  | JBool b => Ok (if b then 1 else 0)
  | JFloat x => float_to_int x
  | JStr s => of_option (int_of_str s) ValueError
  | _ => Raise TypeError
  end.

(** [k in v] for a string [k]. *)
Definition py_in (k : string) (v : json) : res bool :=
  match v with
  | JDict entries => Ok (dict_has entries k)
  | JList items =>
      Ok (existsb (λ x, match x with JStr s => String.eqb s k | _ => false end)
            items)
  | JStr s => Ok (str_contains k s)
  | _ => Raise TypeError
  end.

(** ** Constants and libraries outside the module *)

(** The keys of the endpoint table. *)
Inductive endpoint : Type :=
  | ATTR_CONFIG | ATTR_DATA | ATTR_OTA | ATTR_RESTART | ATTR_VALUES.

(** The constants the module imports from [const.py], which is not part of
    the sources: they are parameters of the development. *)
Class Const : Type := {
  (** [ENDPOINTS[arg].format(host=...)]. *)
  ENDPOINTS : endpoint → string → string;
  (** The legacy-key rename table, pairs [(old_key, new_key)]. *)
  RENAME_KEY_MAP : list (string * string);
  (** The threshold of the stale-cache fallback. *)
  RESPONSES_FROM_CACHE : Z;
}.

(** Modelled from the spec: [const.py] is not part of the sources; the
    payload field the spec calls [uptime] is the value of [ATTR_UPTIME]. *)
Definition ATTR_UPTIME : string := "uptime".

(** The two library functions the update relies on: [caqi_eu.get_caqi]
    called with [with_level=True], which returns the index (or [None]) and
    a dictionary represented here by its ["level"] entry, and dacite's
    [from_dict] at the [NAMSensors] data class of [model.py]. *)
Class Library : Type := {
  get_caqi : option sval → option sval → option Z * string;
  NAMSensors : Type;
  from_dict : gmap string sval → res NAMSensors;
}.

(** ** The client *)

(** Modelled from the spec: [model.py] is not part of the sources;
    [ConnectionOptions] holds the host address and optional credentials. *)
Record ConnectionOptions : Type := {
  opt_host : string;
  opt_auth : option (string * string);
}.

Context {CO : Const} {LIB : Library}.

(** What the transport hands back: the status and the decoded body. *)
Record ClientResponse : Type := {
  resp_status : Z;
  resp_json : res json;
}.

(** One [session.request(method, url, raise_for_status=True, ...)]: the
    call returns a response or raises.  With [raise_for_status] an answer
    of the device with an error status, such as 401 or 500, is raised as
    [ClientResponseError] with that status. *)
Definition ClientSession : Type := string → string → res ClientResponse.

(** The instance attributes; [_software_version] is declared but not
    assigned by [__init__], hence the option. *)
Record NettigoAirMonitor : Type := {
  host : string;
  _last_data : json;
  _options : ConnectionOptions;
  _software_version : option json;
  _update_errors : Z;
  _auth_enabled : json;
}.

Definition __init__ (options : ConnectionOptions) : NettigoAirMonitor :=
  {| host := opt_host options;
     _last_data := JDict [];
     _options := options;
     _software_version := None;
     _update_errors := 0;
     _auth_enabled := JBool false |}.

Definition set_last_data (self : NettigoAirMonitor) (v : json) :=
  {| host := host self; _last_data := v; _options := _options self;
     _software_version := _software_version self;
     _update_errors := _update_errors self;
     _auth_enabled := _auth_enabled self |}.

Definition set_software_version (self : NettigoAirMonitor) (v : json) :=
  {| host := host self; _last_data := _last_data self;
     _options := _options self; _software_version := Some v;
     _update_errors := _update_errors self;
     _auth_enabled := _auth_enabled self |}.

Definition set_update_errors (self : NettigoAirMonitor) (n : Z) :=
  {| host := host self; _last_data := _last_data self;
     _options := _options self;
     _software_version := _software_version self;
     _update_errors := n; _auth_enabled := _auth_enabled self |}.

Definition set_auth_enabled (self : NettigoAirMonitor) (v : json) :=
  {| host := host self; _last_data := _last_data self;
     _options := _options self;
     _software_version := _software_version self;
     _update_errors := _update_errors self; _auth_enabled := v |}.

Definition _construct_url (arg : endpoint) (host : string) : string :=
  ENDPOINTS arg host.

(** *** [_parse_sensor_data] *)

(** One step of the dict comprehension
    [{item["value_type"].lower(): round(float(item["value"]), 1) ...}]:
    the key expression is evaluated before the value expression. *)
Definition parse_item (item : json) : res (string * float) :=
  value_type ← py_getitem item "value_type";
  key ← py_lower value_type;
  value ← py_getitem item "value";
  x ← py_float value;
  mret (key, float_round1 x).

Fixpoint build_result (items : list json) (result : gmap string float)
  : res (gmap string float) :=
  match items with
  | [] => Ok result
  | item :: rest =>
      kv ← parse_item item;
      build_result rest (<[kv.1 := kv.2]> result)
  end.

(** The loop over [result.items()]; a value is a float, never [None]. *)
Definition convert_pressure (result : gmap string float) : gmap string float :=
  map_imap (λ key value,
    Some (if str_contains "pressure" key then float_div value 100 else value))
    result.

(** [if result.get(old_key) is not None: result[new_key] = result.pop(old_key)] *)
Definition rename_step (result : gmap string float) (entry : string * string)
  : gmap string float :=
  match result !! entry.1 with
  | Some value => <[entry.2 := value]> (delete entry.1 result)
  | None => result
  end.

Definition rename_keys (result : gmap string float) : gmap string float :=
  foldl rename_step result RENAME_KEY_MAP.

Definition _parse_sensor_data (data : json) : res (gmap string float) :=
  items ← py_iter data;
  result ← build_result items ∅;
  mret (rename_keys (convert_pressure result)).

(** *** [_async_http_request] *)

Definition invalid_response (host : string) (status : Z) : string :=
  "Invalid response from device " +:+ host +:+ ": " +:+ str_of_int status.

Definition _async_http_request (self : NettigoAirMonitor)
    (session : ClientSession) (method url : string) : res ClientResponse :=
  match session method url with
  | Raise (ClientResponseError status) =>
      if status =? 401 then Raise (AuthFailedError "Authorization has failed")
      else Raise (ApiError (invalid_response (host self) status))
  | Raise ClientConnectorError | Raise TimeoutError =>
      Raise (NotRespondingError
               ("The device " +:+ host self +:+ " is not responding"))
  | Raise error => Raise error
  | Ok resp =>
      if negb (resp_status resp =? 200)
      then Raise (ApiError (invalid_response (host self) (resp_status resp)))
      else Ok resp
  end.

(** *** [async_update] *)

(** The [try] around the normalisation: [TypeError] and [KeyError] become
    [InvalidSensorDataError]. *)
Definition normalize (data : json) : res (gmap string float) :=
  values ← py_getitem data "sensordatavalues";
  _parse_sensor_data values.

Definition parse_or_invalid (data : json) : res (gmap string float) :=
  match normalize data with
  | Raise TypeError | Raise (KeyError _) =>
      Raise (InvalidSensorDataError "Invalid sensor data")
  | r => r
  end.

Definition add_uptime (data : json) (sensors : gmap string sval)
  : res (gmap string sval) :=
  present ← py_in ATTR_UPTIME data;
  if (present : bool) then
    raw ← py_getitem data ATTR_UPTIME;
    n ← py_int raw;
    mret (<[ATTR_UPTIME := VInt n]> sensors)
  else mret sensors.

(** One round of the loop over the sensor families. *)
Definition add_caqi (sensors : gmap string sval) (sensor : string)
  : gmap string sval :=
  let '(value, level) :=
    get_caqi (sensors !! (sensor +:+ "_p1")) (sensors !! (sensor +:+ "_p2")) in
  match value with
  | Some v =>
      if -1 <? v then
        <[sensor +:+ "_caqi_level" := VStr (str_replace " "%char "_"%char level)]>
          (<[sensor +:+ "_caqi" := VInt v]> sensors)
      else sensors
  | None => sensors
  end.

Definition families : list string := ["pms"; "sds011"; "sps30"].

Definition derive_caqi (sensors : gmap string sval) : gmap string sval :=
  foldl add_caqi sensors families.

(** The flat dictionary handed to [from_dict]. *)
Definition collect_sensors (data : json) : res (gmap string sval) :=
  parsed ← parse_or_invalid data;
  sensors ← add_uptime data (VFloat <$> parsed);
  mret (derive_caqi sensors).

(** The part of [async_update] after the payload has been chosen. *)
Definition process_payload (self : NettigoAirMonitor) (data : json)
  : NettigoAirMonitor * res NAMSensors :=
  match py_getitem data "software_version" with
  | Raise e => (self, Raise e)
  | Ok version =>
      (set_software_version self version,
       sensors ← collect_sensors data; from_dict sensors)
  end.

Definition async_update (self : NettigoAirMonitor) (session : ClientSession)
  : NettigoAirMonitor * res NAMSensors :=
  let url := _construct_url ATTR_DATA (host self) in
  match _async_http_request self session "get" url with
  | Raise (NotRespondingError status) =>
      if (_update_errors self <=? RESPONSES_FROM_CACHE)
         && py_bool (_last_data self)
      then
        process_payload
          (set_update_errors self (_update_errors self + 1))
          (_last_data self)
      else (self, Raise (ApiError status))
  | Raise e => (self, Raise e)
  | Ok resp =>
      match resp_json resp with
      | Raise e => (self, Raise e)
      | Ok data =>
          process_payload (set_update_errors (set_last_data self data) 0) data
      end
  end.

(** *** [async_check_credentials], [initialize], [create] *)

Definition async_check_credentials (self : NettigoAirMonitor)
    (session : ClientSession) : res json :=
  let url := _construct_url ATTR_CONFIG (host self) in
  match _async_http_request self session "get" url with
  | Raise (NotRespondingError status) => Raise (ApiError status)
  | Raise e => Raise e
  | Ok resp => resp_json resp
  end.

(** [config.get(key, default)] on a decoded document. *)
Definition py_get (v : json) (k : string) (default : json) : res json :=
  match v with
  | JDict entries =>
      Ok (match dict_get entries k with Some x => x | None => default end)
  | _ => Raise AttributeError
  end.

Definition initialize (self : NettigoAirMonitor) (session : ClientSession)
  : NettigoAirMonitor * res unit :=
  match async_check_credentials self session with
  | Raise (AuthFailedError _) => (set_auth_enabled self (JBool true), Ok ())
  | Raise e => (self, Raise e)
  | Ok config =>
      match py_getitem config "www_basicauth_enabled" with
      | Raise e => (self, Raise e)
      | Ok enabled =>
          let self := set_auth_enabled self enabled in
          match py_get config "SOFTWARE_VERSION" (JStr "") with
          | Raise e => (self, Raise e)
          | Ok version => (set_software_version self version, Ok ())
          end
      end
  end.

Definition create (session : ClientSession) (options : ConnectionOptions)
  : res NettigoAirMonitor :=
  let '(instance, r) := initialize (__init__ options) session in
  match r with
  | Ok _ => Ok instance
  | Raise e => Raise e
  end.

(** *** [async_restart], [async_ota_update] *)

Definition async_restart (self : NettigoAirMonitor) (session : ClientSession)
  : res unit :=
  let url := _construct_url ATTR_RESTART (host self) in
  match _async_http_request self session "post" url with
  | Raise (NotRespondingError status) => Raise (ApiError status)
  | Raise e => Raise e
  | Ok _ => Ok ()
  end.

Definition async_ota_update (self : NettigoAirMonitor)
    (session : ClientSession) : res unit :=
  let url := _construct_url ATTR_OTA (host self) in
  match _async_http_request self session "post" url with
  | Raise (NotRespondingError status) => Raise (ApiError status)
  | Raise e => Raise e
  | Ok _ => Ok ()
  end.

(** *** The properties [software_version] and [auth_enabled] *)

(** Reading an attribute that was never assigned raises
    [AttributeError]. *)
Definition software_version (self : NettigoAirMonitor) : res json :=
  of_option (_software_version self) AttributeError.

Definition auth_enabled (self : NettigoAirMonitor) : json :=
  _auth_enabled self.

(** ** Vocabulary of the properties *)

(** The rename table is well formed when no legacy key is listed twice, no
    canonical key is the target of two entries, and no legacy key is also
    a canonical one. *)
Definition table_ok (table : list (string * string)) : Prop :=
  NoDup table.*1 ∧ NoDup table.*2 ∧ Forall (λ k, k ∉ table.*2) table.*1.

(** An item the comprehension accepts. *)
Definition is_reading (item : json) : Prop :=
  ∃ kv, parse_item item = Ok kv.

(** The key a well-formed item is stored under. *)
Definition reading_key (item : json) : option string :=
  match parse_item item with
  | Ok kv => Some kv.1
  | Raise _ => None
  end.

(** The URL [async_update] requests. *)
Definition data_url (self : NettigoAirMonitor) : string :=
  _construct_url ATTR_DATA (host self).

(** The URL [initialize] requests. *)
Definition config_url (self : NettigoAirMonitor) : string :=
  _construct_url ATTR_CONFIG (host self).

(** The two ways [async_update] comes by a payload, with the state it has
    when the payload is processed: a fresh answer of the device, or the
    stored payload when the device does not respond. *)
Inductive obtains (self : NettigoAirMonitor) (session : ClientSession)
  : NettigoAirMonitor → json → Prop :=
  | obtains_fresh resp data :
      _async_http_request self session "get" (data_url self) = Ok resp →
      resp_json resp = Ok data →
      obtains self session
        (set_update_errors (set_last_data self data) 0) data
  | obtains_cached status :
      _async_http_request self session "get" (data_url self)
        = Raise (NotRespondingError status) →
      _update_errors self <= RESPONSES_FROM_CACHE →
      py_bool (_last_data self) = true →
      obtains self session
        (set_update_errors self (_update_errors self + 1)) (_last_data self).

(** An item of the sensor list that is not a mapping, or lacks one of the
    two expected keys. *)
Inductive malformed_item : json → Prop :=
  | item_not_dict item :
      (∀ entries, item ≠ JDict entries) → malformed_item item
  | item_no_value_type entries :
      dict_get entries "value_type" = None → malformed_item (JDict entries)
  | item_no_value entries s :
      dict_get entries "value_type" = Some (JStr s) →
      dict_get entries "value" = None → malformed_item (JDict entries).

(** A payload whose [sensordatavalues] entry has not the expected shape:
    the key is missing, the entry cannot be iterated, or the first item
    that is not a reading is malformed. *)
Inductive malformed_payload : json → Prop :=
  | payload_no_values entries :
      dict_get entries "sensordatavalues" = None →
      malformed_payload (JDict entries)
  | payload_not_iterable data values :
      py_getitem data "sensordatavalues" = Ok values →
      py_iter values = Raise TypeError →
      malformed_payload data
  | payload_bad_item data values before item after :
      py_getitem data "sensordatavalues" = Ok values →
      py_iter values = Ok (before ++ item :: after) →
      Forall is_reading before →
      malformed_item item →
      malformed_payload data.

(** A transport on which every request fails with a connector error or a
    timeout. *)
Definition down (session : ClientSession) : Prop :=
  ∀ method url,
    session method url = Raise ClientConnectorError
    ∨ session method url = Raise TimeoutError.

(** The message of the not-responding error. *)
Definition not_responding (self : NettigoAirMonitor) : string :=
  "The device " +:+ host self +:+ " is not responding".

(** The state after a run of [async_update] calls, one session a call. *)
Fixpoint updates (self : NettigoAirMonitor) (sessions : list ClientSession)
  : NettigoAirMonitor :=
  match sessions with
  | [] => self
  | session :: rest => updates (async_update self session).1 rest
  end.

(** The key under which the renaming leaves what was stored under [k]: the
    canonical key of the first entry that has [k] as legacy key, or [k]
    itself when no entry has. *)
Fixpoint canonical (table : list (string * string)) (k : string) : string :=
  match table with
  | [] => k
  | entry :: rest =>
      if String.eqb entry.1 k then entry.2 else canonical rest k
  end.

Definition canonical_key (k : string) : string :=
  canonical RENAME_KEY_MAP k.

(** The six keys the index derivation writes. *)
Definition caqi_keys : list string :=
  families ≫= λ sensor, [sensor +:+ "_caqi"; sensor +:+ "_caqi_level"].


End Model.

(** * A concrete instance

    A fixed-point stand-in for the floats (thousandths), a rename table and
    a device, used to run the client on examples. *)

Section Demo.

Definition parse_int (s : string) : option Z :=
  Z.of_int <$> NilZero.int_of_string s.

Definition demo_num : PyNum Z := {|
  float_of_int n := Some (n * 1000);
  float_of_str s := (λ n, n * 1000) <$> parse_int s;
  float_round1 x := (x + 50) / 100 * 100;
  float_div x n := x / n;
  float_bool x := negb (x =? 0);
  float_to_int x := Ok (Z.quot x 1000);
  int_of_str := parse_int;
|}.

Definition demo_const : Const := {|
  ENDPOINTS arg host :=
    "http://" +:+ host +:+
    match arg with
    | ATTR_CONFIG => "/config.json"
    | ATTR_DATA => "/data.json"
    | ATTR_OTA => "/ota"
    | ATTR_RESTART => "/reset"
    | ATTR_VALUES => "/values"
    end;
  RENAME_KEY_MAP :=
    [("conc_co2_ppm", "mhz14a_carbon_dioxide");
     ("humidity", "dht22_humidity");
     ("sds_p1", "sds011_p1");
     ("sds_p2", "sds011_p2");
     ("temperature", "dht22_temperature");
     ("bmp_pressure", "bmp180_pressure");
     ("bmp_temperature", "bmp180_temperature")];
  RESPONSES_FROM_CACHE := 4;
|}.

#[local] Existing Instances demo_num demo_const.

(** The sub-index of one pollutant; -1 when the reading is not there. *)
Definition sub_index (v : option (@sval Z)) : Z :=
  match v with
  | Some (VFloat x) => x / 1000
  | _ => -1
  end.

Definition level_of (index : Z) : string :=
  if index <? 25 then "very low"
  else if index <? 50 then "low"
  else if index <? 75 then "medium"
  else if index <? 100 then "high"
  else "very high".

(** An index in the manner of the CAQI: the highest of the sub-indices of
    the pollutants that were given. *)
Definition demo_lib : @Library Z := {|
  get_caqi pm10 pm25 :=
    let index := Z.max (sub_index pm10) (sub_index pm25) in
    (Some index, level_of index);
  NAMSensors := list (string * @sval Z);
  from_dict sensors := Ok (map_to_list sensors);
|}.

#[local] Existing Instance demo_lib.

Definition reading (value_type : string) (value : @json Z) : @json Z :=
  JDict [("value_type", JStr value_type); ("value", value)].

Definition demo_payload (values : @json Z) : @json Z :=
  JDict [("software_version", JStr "NAMF-2020-36");
         ("uptime", JStr "456987");
         ("sensordatavalues", values)].

Definition demo_values : list (@json Z) :=
  [reading "PMS_P1" (JStr "40");
   reading "PMS_P2" (JStr "20");
   reading "BME280_pressure" (JStr "101325");
   reading "temperature" (JInt 7);
   reading "bme280_pressure" (JInt 99000)].

Definition demo_monitor : @NettigoAirMonitor Z :=
  __init__ {| opt_host := "10.0.0.2"; opt_auth := None |}.

(** A device that answers every request with the given status and body. *)
Definition answering (status : Z) (body : @json Z) : @ClientSession Z :=
  λ _ _, Ok {| resp_status := status; resp_json := Ok body |}.

(** A transport that raises on every request. *)
Definition failing (e : exn) : @ClientSession Z := λ _ _, Raise e.

(** A first update against a device that answers. *)
Definition demo_first : @NettigoAirMonitor Z * res NAMSensors :=
  async_update demo_monitor (answering 200 (demo_payload (JList demo_values))).

Definition demo_sensors : @NAMSensors Z demo_lib :=
  [("uptime", VInt 456987); ("bme280_pressure", VFloat 990000);
   ("dht22_temperature", VFloat 7000); ("pms_caqi_level", VStr "low");
   ("pms_caqi", VInt 40); ("pms_p1", VFloat 40000);
   ("pms_p2", VFloat 20000)].

Definition demo_built : gmap string Z :=
  from_res ∅ (build_result demo_values ∅).

Definition demo_parsed : gmap string Z :=
  from_res ∅ (parse_or_invalid (demo_payload (JList demo_values))).


Definition demo_config : @json Z :=
  JDict [("www_basicauth_enabled", JBool true);
         ("SOFTWARE_VERSION", JStr "NAMF-2020-36")].

(** The instance [create] returns from a device that answers the config
    request with [demo_config]. *)
Definition demo_created : @NettigoAirMonitor Z :=
  set_software_version (set_auth_enabled demo_monitor (JBool true))
    (JStr "NAMF-2020-36").

Definition demo_normalized : gmap string Z :=
  from_res ∅ (_parse_sensor_data (JList demo_values)).

Definition demo_collected : gmap string (@sval Z) :=
  from_res ∅ (collect_sensors (demo_payload (JList demo_values))).

(** Readings of a BMP180 sensor, alone and with a reading under its legacy
    name, and humidity readings under both names. *)
Definition bmp_values : list (@json Z) :=
  [reading "PMS_P1" (JStr "40"); reading "BMP180_pressure" (JInt 100000)].

Definition bmp_clash_values : list (@json Z) :=
  [reading "BMP180_pressure" (JInt 100000);
   reading "BMP_pressure" (JInt 90000)].

Definition temperature_values : list (@json Z) :=
  [reading "temperature" (JInt 5); reading "TEMPERATURE" (JInt 7)].

Definition humidity_clash_values : list (@json Z) :=
  [reading "dht22_humidity" (JInt 50); reading "DHT22_humidity" (JInt 60);
   reading "humidity" (JInt 45)].

End Demo.

(** * Properties *)

(** ** The rename loop *)

Section Rename.
Context {float : Type} {PN : PyNum float}.
Implicit Types (table : list (string * string)) (m : gmap string float).

Lemma rename_step_other m old new k :
  k ≠ old → k ≠ new → rename_step m (old, new) !! k = m !! k.
Proof.
  intros Ho Hn. unfold rename_step; simpl.
  destruct (m !! old); [|done].
  by rewrite lookup_insert_ne, lookup_delete_ne.
Qed.

Lemma rename_untouched table m k :
  k ∉ table.*1 → k ∉ table.*2 → foldl rename_step m table !! k = m !! k.
Proof.
  revert m. induction table as [|[old new] table IH]; intros m Ho Hn; [done|].
  simpl in *. apply not_elem_of_cons in Ho as [? ?].
  apply not_elem_of_cons in Hn as [? ?].
  rewrite IH by done. by apply rename_step_other.
Qed.

Lemma rename_step_absent m old new k :
  k ≠ new → m !! k = None → rename_step m (old, new) !! k = None.
Proof.
  intros Hn Hk. unfold rename_step; simpl.
  destruct (m !! old); [|done].
  rewrite lookup_insert_ne by done.
  destruct (decide (old = k)) as [->|];
    [apply lookup_delete_eq | by rewrite lookup_delete_ne].
Qed.

Lemma rename_step_old m old new :
  old ≠ new → rename_step m (old, new) !! old = None.
Proof.
  intros Hne. unfold rename_step; simpl.
  destruct (m !! old) eqn:E; [|done].
  rewrite lookup_insert_ne by done. apply lookup_delete_eq.
Qed.

(** A key that no entry creates and that is absent stays absent. *)
Lemma rename_absent table m k :
  k ∉ table.*2 → m !! k = None → foldl rename_step m table !! k = None.
Proof.
  revert m. induction table as [|[old new] table IH]; intros m Hn Hk; [done|].
  simpl in *. apply not_elem_of_cons in Hn as [? ?].
  apply IH; [done|]. by apply rename_step_absent.
Qed.

(** No legacy key survives the loop. *)
Lemma rename_old_gone table m k :
  k ∈ table.*1 → k ∉ table.*2 → foldl rename_step m table !! k = None.
Proof.
  revert m. induction table as [|[old new] table IH]; intros m Ho Hn.
  { by apply elem_of_nil in Ho. }
  simpl in *. apply not_elem_of_cons in Hn as [Hne Hn].
  apply elem_of_cons in Ho as [->|Ho]; [|by apply IH].
  apply rename_absent; [done|]. by apply rename_step_old.
Qed.

(** The value of a present legacy key ends up under its canonical key. *)
Lemma rename_moved table m old new v :
  table_ok table → (old, new) ∈ table → m !! old = Some v →
  foldl rename_step m table !! new = Some v.
Proof.
  revert m. induction table as [|[o n] table IH]; intros m (Ho & Hn & Hd) Hin Hv.
  { by apply elem_of_nil in Hin. }
  simpl in *. apply NoDup_cons in Ho as [Ho1 Ho2].
  apply NoDup_cons in Hn as [Hn1 Hn2].
  apply Forall_cons in Hd as [Hd1 Hd2].
  apply not_elem_of_cons in Hd1 as [Hon Hd1].
  assert (Hd3 : Forall (λ k, k ∉ table.*2) table.*1).
  { eapply Forall_impl; [exact Hd2|]. simpl. intros k Hk.
    by apply not_elem_of_cons in Hk as [_ ?]. }
  assert (Hd4 : ∀ k, k ∈ table.*1 → k ≠ n).
  { intros k Hk. rewrite Forall_forall in Hd2.
    specialize (Hd2 k Hk). by apply not_elem_of_cons in Hd2 as [? _]. }
  apply elem_of_cons in Hin as [Heq|Hin].
  - injection Heq as -> ->.
    rewrite rename_untouched; [| |done].
    + unfold rename_step; simpl. rewrite Hv. apply lookup_insert_eq.
    + intros Hk. by apply (Hd4 n).
  - assert (old ∈ table.*1) by (apply list_elem_of_fmap; by exists (old, new)).
    apply IH; [done|done|].
    rewrite rename_step_other; [done| |by apply Hd4].
    intros ->. done.
Qed.

(** An absent legacy key leaves its canonical key as it was. *)
Lemma rename_not_created table m old new :
  table_ok table → (old, new) ∈ table → m !! old = None →
  foldl rename_step m table !! new = m !! new.
Proof.
  revert m. induction table as [|[o n] table IH]; intros m (Ho & Hn & Hd) Hin Hv.
  { by apply elem_of_nil in Hin. }
  simpl in *. apply NoDup_cons in Ho as [Ho1 Ho2].
  apply NoDup_cons in Hn as [Hn1 Hn2].
  apply Forall_cons in Hd as [Hd1 Hd2].
  apply not_elem_of_cons in Hd1 as [Hon Hd1].
  assert (Hd3 : Forall (λ k, k ∉ table.*2) table.*1).
  { eapply Forall_impl; [exact Hd2|]. simpl. intros k Hk.
    by apply not_elem_of_cons in Hk as [_ ?]. }
  assert (Hd4 : ∀ k, k ∈ table.*1 → k ≠ n).
  { intros k Hk. rewrite Forall_forall in Hd2.
    specialize (Hd2 k Hk). by apply not_elem_of_cons in Hd2 as [? _]. }
  apply elem_of_cons in Hin as [Heq|Hin].
  - injection Heq as -> ->.
    rewrite rename_untouched; [| |done].
    + unfold rename_step; simpl. by rewrite Hv.
    + intros Hk. by apply (Hd4 n).
  - assert (old ∈ table.*1) by (apply list_elem_of_fmap; by exists (old, new)).
    assert (new ∈ table.*2) by (apply list_elem_of_fmap; by exists (old, new)).
    rewrite IH; [|done|done|].
    + apply rename_step_other; [|by intros ->].
      intros ->. rewrite Forall_forall in Hd3. by apply (Hd3 o).
    + apply rename_step_absent; [by apply Hd4|done].
Qed.

(** Once no legacy key is present the loop changes nothing. *)
Lemma rename_noop table m :
  (∀ k, k ∈ table.*1 → m !! k = None) → foldl rename_step m table = m.
Proof.
  revert m. induction table as [|[old new] table IH]; intros m Hm; [done|].
  simpl in *. unfold rename_step at 2; simpl.
  rewrite (Hm old) by apply list_elem_of_here.
  apply IH. intros k Hk. apply Hm. by apply list_elem_of_further.
Qed.

Lemma table_ok_tail entry table : table_ok (entry :: table) → table_ok table.
Proof.
  intros (Ho & Hn & Hd). simpl in *.
  apply NoDup_cons in Ho as [_ Ho]. apply NoDup_cons in Hn as [_ Hn].
  apply Forall_cons in Hd as [_ Hd]. repeat split; [done|done|].
  eapply Forall_impl; [exact Hd|]. simpl. intros k Hk.
  by apply not_elem_of_cons in Hk as [_ ?].
Qed.

(** A key that is no legacy key keeps its value when the legacy keys the
    table renames to it are absent. *)
Lemma rename_unclaimed table m k :
  table_ok table → k ∉ table.*1 →
  (∀ old, (old, k) ∈ table → m !! old = None) →
  foldl rename_step m table !! k = m !! k.
Proof.
  revert m. induction table as [|[o n] table IH]; intros m Hok Hk Hnone; [done|].
  pose proof (table_ok_tail _ _ Hok) as Hok'.
  destruct Hok as (_ & Hn & Hd). simpl in *.
  apply NoDup_cons in Hn as [Hn1 _]. apply Forall_cons in Hd as [_ Hd].
  apply not_elem_of_cons in Hk as [Hko Hk].
  destruct (decide (n = k)) as [->|Hnk].
  - unfold rename_step at 2; simpl.
    rewrite (Hnone o) by apply list_elem_of_here.
    by apply rename_untouched.
  - rewrite IH; [by apply rename_step_other|done|done|].
    intros old Hin. apply rename_step_absent.
    + assert (Hold : old ∈ table.*1)
        by (apply list_elem_of_fmap; by exists (old, k)).
      rewrite Forall_forall in Hd. specialize (Hd old Hold).
      by apply not_elem_of_cons in Hd as [? _].
    + apply Hnone. by apply list_elem_of_further.
Qed.

Lemma canonical_other table k : k ∉ table.*1 → canonical table k = k.
Proof.
  induction table as [|[o n] table IH]; intros Hk; [done|]. simpl in *.
  apply not_elem_of_cons in Hk as [Hne Hk].
  destruct (String.eqb_spec o k); [congruence|by apply IH].
Qed.

Lemma canonical_entry table k :
  k ∈ table.*1 → (k, canonical table k) ∈ table.
Proof.
  induction table as [|[o n] table IH]; intros Hk.
  { by apply elem_of_nil in Hk. }
  simpl in *. destruct (String.eqb_spec o k) as [->|Hne].
  - apply list_elem_of_here.
  - apply list_elem_of_further, IH.
    by apply elem_of_cons in Hk as [?|?]; [congruence|].
Qed.

End Rename.

(** ** The dict comprehension and the pressure loop *)

Section Parse.
Context {float : Type} {PN : PyNum float} {CO : Const}.
Implicit Types (items : list (@json float)) (m acc : gmap string float).

Lemma build_result_total items acc :
  Forall is_reading items → ∃ m, build_result items acc = Ok m.
Proof.
  revert acc. induction items as [|item items IH]; intros acc Hall.
  { by exists acc. }
  apply Forall_cons in Hall as [[kv Hkv] Hall]. simpl. rewrite Hkv. simpl.
  apply IH, Hall.
Qed.

(** Items with other keys leave the entry of [k] alone. *)
Lemma build_result_keep items acc m k :
  build_result items acc = Ok m →
  Forall (λ x, reading_key x ≠ Some k) items →
  m !! k = acc !! k.
Proof.
  revert acc. induction items as [|item items IH]; intros acc Hb Hall.
  { simpl in Hb. by injection Hb as ->. }
  apply Forall_cons in Hall as [Hk Hall]. simpl in Hb.
  unfold reading_key in Hk.
  destruct (parse_item item) as [[k' v']|] eqn:Hitem; simpl in *; [|done].
  rewrite (IH _ Hb Hall). apply lookup_insert_ne. congruence.
Qed.

(** The last item stored under [k] decides the entry of [k]. *)
Lemma build_result_last before item after acc m k v :
  build_result (before ++ item :: after) acc = Ok m →
  parse_item item = Ok (k, v) →
  Forall (λ x, reading_key x ≠ Some k) after →
  m !! k = Some v.
Proof.
  revert acc. induction before as [|x before IH]; intros acc Hb Hitem Hall;
    simpl in Hb.
  - rewrite Hitem in Hb. simpl in Hb.
    rewrite (build_result_keep _ _ _ _ Hb Hall). apply lookup_insert_eq.
  - destruct (parse_item x) as [kv|]; simpl in Hb; [|done]. by eapply IH.
Qed.

Lemma lookup_convert_pressure m k :
  convert_pressure m !! k =
  (λ v, if str_contains "pressure" k then float_div v 100 else v) <$> m !! k.
Proof.
  unfold convert_pressure. rewrite map_lookup_imap. by destruct (m !! k).
Qed.

(** What [parse_item] yields on a dict with both keys. *)
Lemma parse_item_reading item value_type raw x :
  py_getitem item "value_type" = Ok (JStr value_type) →
  py_getitem item "value" = Ok raw →
  py_float raw = Ok x →
  parse_item item = Ok (str_lower value_type, float_round1 x).
Proof.
  intros Hvt Hraw Hx. unfold parse_item. rewrite Hvt. simpl.
  rewrite Hraw. simpl. by rewrite Hx.
Qed.

(** The entry that the last reading stored under [k] decides, after the
    whole of [_parse_sensor_data]: it is under the canonical key of [k], as
    long as no reading is stored under a legacy key that the table renames
    to [k]. *)
Lemma parse_last_reading_canonical before item after k v :
  table_ok RENAME_KEY_MAP →
  Forall is_reading (before ++ item :: after) →
  parse_item item = Ok (k, v) →
  Forall (λ x, reading_key x ≠ Some k) after →
  (∀ old, (old, k) ∈ RENAME_KEY_MAP →
     Forall (λ x, reading_key x ≠ Some old) (before ++ item :: after)) →
  ∃ result,
    _parse_sensor_data (JList (before ++ item :: after)) = Ok result ∧
    result !! canonical_key k =
      Some (if str_contains "pressure" k then float_div v 100 else v).
Proof.
  intros Hok Hall Hitem Hafter Hfree.
  destruct (build_result_total _ ∅ Hall) as [m Hm].
  exists (rename_keys (convert_pressure m)). split.
  { unfold _parse_sensor_data. simpl. by rewrite Hm. }
  assert (Hk : convert_pressure m !! k =
               Some (if str_contains "pressure" k then float_div v 100 else v)).
  { rewrite lookup_convert_pressure.
    by rewrite (build_result_last _ _ _ _ _ _ _ Hm Hitem Hafter). }
  unfold rename_keys, canonical_key.
  destruct (decide (k ∈ RENAME_KEY_MAP.*1)) as [Hin|Hout].
  - eapply rename_moved; [done|by apply canonical_entry|done].
  - rewrite (canonical_other _ _ Hout), <- Hk.
    apply rename_unclaimed; [done|done|].
    intros old Hold. rewrite lookup_convert_pressure.
    rewrite (build_result_keep _ _ _ _ Hm (Hfree old Hold)).
    by rewrite lookup_empty.
Qed.

End Parse.

(** ** The update: payload selection *)

Section Update.
Context {float : Type} {PN : PyNum float} {CO : Const} {LIB : @Library float}.
Implicit Types (self : @NettigoAirMonitor float) (session : @ClientSession float).

(** However the payload was come by, the rest of the update is
    [process_payload]. *)
Lemma obtains_update self session self' data :
  obtains self session self' data →
  async_update self session = process_payload self' data.
Proof.
  intros [resp d Hreq Hjson|status Hreq Hle Hbool];
    unfold async_update; fold (data_url self); rewrite Hreq.
  - by rewrite Hjson.
  - apply Z.leb_le in Hle. by rewrite Hle, Hbool.
Qed.

Lemma process_payload_state self data self' r :
  process_payload self data = (self', r) →
  _last_data self' = _last_data self ∧
  _update_errors self' = _update_errors self.
Proof.
  unfold process_payload.
  destruct (py_getitem data "software_version");
    intros [= <- _]; by split.
Qed.

Lemma process_payload_version self data version :
  py_getitem data "software_version" = Ok version →
  process_payload self data =
    (set_software_version self version,
     collect_sensors data ≫= from_dict).
Proof. intros Hv. unfold process_payload. by rewrite Hv. Qed.

(** A processed payload that yields sensors has a software version. *)
Lemma process_payload_ok self data self' sensors :
  process_payload self data = (self', Ok sensors) →
  ∃ entries version,
    data = JDict entries ∧
    dict_get entries "software_version" = Some version ∧
    self' = set_software_version self version ∧
    collect_sensors data ≫= from_dict = Ok sensors.
Proof.
  unfold process_payload.
  destruct data as [| | | | | |entries]; simpl; try by intros [= _ ?].
  destruct (dict_get entries "software_version") as [version|] eqn:Hv;
    simpl; [|by intros [= _ ?]].
  intros [= <- Hs]. by exists entries, version.
Qed.

(** A call that returns sensors has processed the payload it leaves in the
    cache. *)
Lemma update_ok_payload self session self' sensors :
  async_update self session = (self', Ok sensors) →
  ∃ st, obtains self session st (_last_data self') ∧
        process_payload st (_last_data self') = (self', Ok sensors).
Proof.
  unfold async_update. fold (data_url self).
  destruct (_async_http_request self session "get" (data_url self))
    as [resp|e] eqn:Hreq.
  - destruct (resp_json resp) as [data|e] eqn:Hjson; [|by intros [= _ ?]].
    intros Hp. destruct (process_payload_state _ _ _ _ Hp) as [Hd _].
    simpl in Hd. rewrite Hd. eexists. split; [|exact Hp].
    by eapply obtains_fresh.
  - destruct e; try by intros [= _ ?].
    destruct (_update_errors self <=? RESPONSES_FROM_CACHE) eqn:Hle;
      simpl; [|by intros [= _ ?]].
    destruct (py_bool (_last_data self)) eqn:Hbool; [|by intros [= _ ?]].
    intros Hp. destruct (process_payload_state _ _ _ _ Hp) as [Hd _].
    simpl in Hd. rewrite Hd. eexists. split; [|exact Hp].
    eapply obtains_cached; [done| |done]. by apply Z.leb_le.
Qed.

(** The sensors a payload yields do not depend on the state. *)
Lemma process_payload_result self1 self2 data :
  (process_payload self1 data).2 = (process_payload self2 data).2.
Proof.
  unfold process_payload.
  by destruct (py_getitem data "software_version").
Qed.

(** C1. When the request of [async_update] fails with the not-responding
    error, the failure counter is at most [RESPONSES_FROM_CACHE]
    (comparison [<=]) and the stored payload is that of an earlier
    successful update, the call returns the sensors parsed from the stored
    payload and increments the counter by exactly 1, leaving the stored
    payload in place; and any later call whose request succeeds resets the
    counter to 0 and stores the new payload. *)
Theorem update_fallback_then_reset
    (prev : NettigoAirMonitor) (earlier : ClientSession)
    (stored : NettigoAirMonitor) (sensors : NAMSensors)
    self (down : ClientSession) (status : string)
    (later : NettigoAirMonitor) (up : ClientSession)
    (resp : ClientResponse) (data : json) :
  async_update prev earlier = (stored, Ok sensors) →
  _last_data self = _last_data stored →
  _async_http_request self down "get" (data_url self)
    = Raise (NotRespondingError status) →
  _update_errors self <= RESPONSES_FROM_CACHE →
  _async_http_request later up "get" (data_url later) = Ok resp →
  resp_json resp = Ok data →
  (∃ self',
     async_update self down = (self', Ok sensors) ∧
     _update_errors self' = _update_errors self + 1 ∧
     _last_data self' = _last_data self) ∧
  _update_errors (async_update later up).1 = 0 ∧
  _last_data (async_update later up).1 = data.
Proof.
  intros Hprev Hsame Hdown Hle Hup Hjson. split.
  - destruct (update_ok_payload _ _ _ _ Hprev) as (st & _ & Hst).
    destruct (process_payload_ok _ _ _ _ Hst)
      as (entries & version & Hd & Hv & _ & Hsens).
    assert (Hcached : obtains self down
              (set_update_errors self (_update_errors self + 1))
              (_last_data self)).
    { apply (obtains_cached _ _ status); [done|done|].
      rewrite Hsame, Hd. simpl. destruct entries; [done|done]. }
    rewrite (obtains_update _ _ _ _ Hcached).
    rewrite (process_payload_version _ _ version)
      by (rewrite Hsame, Hd; simpl; by rewrite Hv).
    rewrite Hsame, Hsens. eexists. split; [reflexivity|]. by simpl.
  - rewrite (obtains_update _ _ _ _ (obtains_fresh _ _ _ _ Hup Hjson)).
    destruct (process_payload _ data) as [st r] eqn:Hp.
    destruct (process_payload_state _ _ _ _ Hp) as [Hd He]. simpl.
    by rewrite Hd, He.
Qed.

(** C2. When the request of [async_update] fails with the not-responding
    error and the cache of the last payload is empty, the call raises
    [ApiError] with the status detail of the failure; the state is as it
    was, so the fallback was not taken. *)
Theorem update_without_cache_raises self session status :
  _async_http_request self session "get" (data_url self)
    = Raise (NotRespondingError status) →
  py_bool (_last_data self) = false →
  async_update self session = (self, Raise (ApiError status)).
Proof.
  intros Hreq Hempty. unfold async_update. fold (data_url self).
  rewrite Hreq, Hempty. by rewrite andb_false_r.
Qed.

(** C9. A payload, fresh or taken from the cache, that is a dict without
    the [software_version] key makes [async_update] raise [KeyError], which
    is none of the client's own errors, whatever its sensor list holds; the
    cached software version is not touched.  So a call that returns sensors
    has processed a payload with that key. *)
Theorem update_requires_software_version self session self' data entries :
  obtains self session self' data →
  data = JDict entries →
  dict_get entries "software_version" = None →
  async_update self session = (self', Raise (KeyError "software_version")) ∧
  is_domain_error (KeyError "software_version") = false ∧
  (∀ self0 session0 self1 sensors,
     async_update self0 session0 = (self1, Ok sensors) →
     ∃ version,
       py_getitem (_last_data self1) "software_version" = Ok version ∧
       _software_version self1 = Some version).
Proof.
  intros Hobt -> Hnone. split; [|split; [done|]].
  - rewrite (obtains_update _ _ _ _ Hobt). unfold process_payload. simpl.
    by rewrite Hnone.
  - intros self0 session0 self1 sensors Hok.
    destruct (update_ok_payload _ _ _ _ Hok) as (st & _ & Hst).
    destruct (process_payload_ok _ _ _ _ Hst)
      as (es & version & Hd & Hv & -> & _).
    exists version. simpl. split; [|done].
    simpl in Hd. rewrite Hd. simpl. by rewrite Hv.
Qed.

End Update.

(** ** The request boundary and the initialisation *)

Section Request.
Context {float : Type} {PN : PyNum float} {CO : Const} {LIB : @Library float}.
Implicit Types (self : @NettigoAirMonitor float) (session : @ClientSession float).

Lemma request_ok self session method url resp :
  session method url = Ok resp → resp_status resp = 200 →
  _async_http_request self session method url = Ok resp.
Proof.
  intros Hs Hst. unfold _async_http_request. by rewrite Hs, Hst.
Qed.

Lemma request_unauthorized self session method url :
  session method url = Raise (ClientResponseError 401) →
  _async_http_request self session method url
    = Raise (AuthFailedError "Authorization has failed").
Proof. intros Hs. unfold _async_http_request. by rewrite Hs. Qed.

(** C3, as the code has it.  Through [_async_http_request] a response
    error with status 401 becomes [AuthFailedError]; a response error with
    any other status, and a returned response whose status is not 200,
    become [ApiError] with a message that ends in the decimal status; a
    connector error and a timeout become [NotRespondingError]; a returned
    response with status 200 is handed back as it is. *)
Theorem request_translates_errors self session method url :
  (session method url = Raise (ClientResponseError 401) →
   _async_http_request self session method url
     = Raise (AuthFailedError "Authorization has failed")) ∧
  (∀ status, session method url = Raise (ClientResponseError status) →
     status ≠ 401 →
     _async_http_request self session method url
       = Raise (ApiError ("Invalid response from device " +:+ host self
                          +:+ ": " +:+ str_of_int status))) ∧
  (∀ resp, session method url = Ok resp → resp_status resp ≠ 200 →
     _async_http_request self session method url
       = Raise (ApiError ("Invalid response from device " +:+ host self
                          +:+ ": " +:+ str_of_int (resp_status resp)))) ∧
  (session method url = Raise ClientConnectorError
   ∨ session method url = Raise TimeoutError →
   _async_http_request self session method url
     = Raise (NotRespondingError
                ("The device " +:+ host self +:+ " is not responding"))) ∧
  (∀ resp, session method url = Ok resp → resp_status resp = 200 →
     _async_http_request self session method url = Ok resp).
Proof.
  repeat split.
  - apply request_unauthorized.
  - intros status Hs Hne. unfold _async_http_request. rewrite Hs.
    apply Z.eqb_neq in Hne. by rewrite Hne.
  - intros resp Hs Hne. unfold _async_http_request. rewrite Hs.
    apply Z.eqb_neq in Hne. by rewrite Hne.
  - intros [Hs|Hs]; unfold _async_http_request; by rewrite Hs.
  - intros resp. apply request_ok.
Qed.

(** C7. [initialize] against a device that answers the config request
    with 401 sets the auth-enabled flag to true and leaves the software
    version as it was, which is unset on a new instance; against a device
    that answers with a config document it sets the flag to the document's
    [www_basicauth_enabled] entry and the software version to its
    [SOFTWARE_VERSION] entry, or to the empty string when there is none. *)
Theorem initialize_sets_auth_and_version
    self (denied granted : ClientSession) resp entries enabled :
  denied "get" (config_url self) = Raise (ClientResponseError 401) →
  granted "get" (config_url self) = Ok resp →
  resp_status resp = 200 →
  resp_json resp = Ok (JDict entries) →
  dict_get entries "www_basicauth_enabled" = Some enabled →
  ((initialize self denied).2 = Ok () ∧
   _auth_enabled (initialize self denied).1 = JBool true ∧
   _software_version (initialize self denied).1 = _software_version self ∧
   (∀ options, self = __init__ options →
      _software_version (initialize self denied).1 = None)) ∧
  ((initialize self granted).2 = Ok () ∧
   _auth_enabled (initialize self granted).1 = enabled ∧
   _software_version (initialize self granted).1 =
     Some (default (JStr "") (dict_get entries "SOFTWARE_VERSION"))).
Proof.
  intros Hdenied Hgranted Hst Hjson Henabled. split.
  - unfold initialize, async_check_credentials. fold (config_url self).
    rewrite (request_unauthorized _ _ _ _ Hdenied). simpl.
    repeat split. by intros options ->.
  - unfold initialize, async_check_credentials. fold (config_url self).
    rewrite (request_ok _ _ _ _ _ Hgranted Hst), Hjson. simpl.
    rewrite Henabled. simpl.
    by destruct (dict_get entries "SOFTWARE_VERSION").
Qed.

End Request.

(** ** The normalised sensor map *)

Section Normalize.
Context {float : Type} {PN : PyNum float} {CO : Const} {LIB : @Library float}.
Implicit Types (self : @NettigoAirMonitor float) (session : @ClientSession float).

(** C4, as the code has it.  With a well-formed rename table, a reading
    whose lower-cased [value_type] contains ["pressure"] is stored as
    [round(value, 1) / 100]: the float of the raw value is rounded to one
    decimal first and the rounded value is divided by 100.  This holds of
    the reading that decides the entry: no later reading has the same key,
    and no reading is stored under a legacy key that the table renames to
    this key.  The value is under the key itself, or under its canonical
    key when the key is a legacy key of the table. *)
Theorem pressure_rounded_then_divided
    before item after value_type raw x :
  table_ok RENAME_KEY_MAP →
  Forall is_reading (before ++ item :: after) →
  py_getitem item "value_type" = Ok (JStr value_type) →
  py_getitem item "value" = Ok raw →
  py_float raw = Ok x →
  str_contains "pressure" (str_lower value_type) = true →
  Forall (λ later, reading_key later ≠ Some (str_lower value_type)) after →
  (∀ old, (old, str_lower value_type) ∈ RENAME_KEY_MAP →
     Forall (λ other, reading_key other ≠ Some old)
       (before ++ item :: after)) →
  ∃ result,
    _parse_sensor_data (JList (before ++ item :: after)) = Ok result ∧
    result !! canonical_key (str_lower value_type)
      = Some (float_div (float_round1 x) 100).
Proof.
  intros Hok Hall Hvt Hraw Hx Hp Hafter Hfree.
  pose proof (parse_item_reading _ _ _ _ Hvt Hraw Hx) as Hitem.
  destruct (parse_last_reading_canonical _ _ _ _ _ Hok Hall Hitem Hafter Hfree)
    as (result & Hres & Hk).
  exists result. split; [done|]. by rewrite Hk, Hp.
Qed.

(** C10, as the code has it.  With a well-formed rename table, when
    several readings of the list have the same [value_type] up to case, the
    map holds the normalised value of the last of them: the rounded float
    of its raw value, divided by 100 for a pressure key.  The value is
    under the key itself, or under its canonical key when the key is a
    legacy key of the table; and no reading is stored under a legacy key
    that the table renames to this key. *)
Theorem duplicate_readings_last_wins
    before first item after value_type raw x :
  table_ok RENAME_KEY_MAP →
  Forall is_reading (before ++ item :: after) →
  first ∈ before →
  reading_key first = Some (str_lower value_type) →
  py_getitem item "value_type" = Ok (JStr value_type) →
  py_getitem item "value" = Ok raw →
  py_float raw = Ok x →
  Forall (λ later, reading_key later ≠ Some (str_lower value_type)) after →
  (∀ old, (old, str_lower value_type) ∈ RENAME_KEY_MAP →
     Forall (λ other, reading_key other ≠ Some old)
       (before ++ item :: after)) →
  ∃ result,
    _parse_sensor_data (JList (before ++ item :: after)) = Ok result ∧
    result !! canonical_key (str_lower value_type) =
      Some (if str_contains "pressure" (str_lower value_type)
            then float_div (float_round1 x) 100 else float_round1 x).
Proof.
  intros Hok Hall _ _ Hvt Hraw Hx Hafter Hfree.
  pose proof (parse_item_reading _ _ _ _ Hvt Hraw Hx) as Hitem.
  exact (parse_last_reading_canonical _ _ _ _ _ Hok Hall Hitem Hafter Hfree).
Qed.

(** C5. With a well-formed rename table, for every entry
    [(old_key, new_key)] of the table and every map the parsing produces:
    the old key is absent from the map; if the old key held a value before
    the renaming, that value is under the new key; if the old key was
    absent, the new key holds what it held before, so the renaming did not
    create it; and renaming once more changes nothing. *)
Theorem rename_moves_legacy_keys data items built old_key new_key :
  table_ok RENAME_KEY_MAP →
  (old_key, new_key) ∈ RENAME_KEY_MAP →
  py_iter data = Ok items →
  build_result items ∅ = Ok built →
  ∃ result,
    _parse_sensor_data data = Ok result ∧
    result !! old_key = None ∧
    (∀ value, convert_pressure built !! old_key = Some value →
       result !! new_key = Some value) ∧
    (convert_pressure built !! old_key = None →
       result !! new_key = convert_pressure built !! new_key) ∧
    rename_keys result = result.
Proof.
  intros Hok Hin Hiter Hbuilt.
  exists (rename_keys (convert_pressure built)).
  assert (Hgone : ∀ k, k ∈ RENAME_KEY_MAP.*1 →
            rename_keys (convert_pressure built) !! k = None).
  { intros k Hk. apply rename_old_gone; [done|].
    destruct Hok as (_ & _ & Hd). rewrite Forall_forall in Hd. by apply Hd. }
  split; [|split; [|split; [|split]]].
  - unfold _parse_sensor_data. rewrite Hiter. simpl. by rewrite Hbuilt.
  - apply Hgone. apply list_elem_of_fmap. by exists (old_key, new_key).
  - intros value Hv. by eapply rename_moved.
  - intros Hv. by eapply rename_not_created.
  - by apply rename_noop.
Qed.

Lemma malformed_item_raises item :
  malformed_item item →
  parse_item item = Raise TypeError ∨ ∃ key, parse_item item = Raise (KeyError key).
Proof.
  intros [it Hnd|entries Hvt|entries s Hvt Hv]; unfold parse_item.
  - left. destruct it; try done. by destruct (Hnd entries).
  - right. exists "value_type". simpl. by rewrite Hvt.
  - right. exists "value". simpl. rewrite Hvt. simpl. by rewrite Hv.
Qed.

Lemma build_result_raises before item after acc e :
  Forall is_reading before → parse_item item = Raise e →
  build_result (before ++ item :: after) acc = Raise e.
Proof.
  revert acc. induction before as [|x before IH]; intros acc Hall Hitem; simpl.
  - by rewrite Hitem.
  - apply Forall_cons in Hall as [[kv Hkv] Hall]. rewrite Hkv. simpl.
    by apply IH.
Qed.

Lemma malformed_payload_raises data :
  malformed_payload data →
  normalize data = Raise TypeError ∨ ∃ key, normalize data = Raise (KeyError key).
Proof.
  intros [entries Hnone|d values Hget Hiter
         |d values before item after Hget Hiter Hall Hbad]; unfold normalize.
  - right. exists "sensordatavalues". simpl. by rewrite Hnone.
  - left. rewrite Hget. simpl. unfold _parse_sensor_data. by rewrite Hiter.
  - rewrite Hget. simpl. unfold _parse_sensor_data. rewrite Hiter. simpl.
    destruct (malformed_item_raises _ Hbad) as [He|[key He]];
      rewrite (build_result_raises _ _ _ _ _ Hall He); eauto.
Qed.

(** C8, as the code has it.  For a payload, fresh or taken from the cache,
    that has a software version: if its [sensordatavalues] entry is
    missing, cannot be iterated, or holds an item that is not a mapping or
    lacks the [value_type] or the [value] key, [async_update] raises
    [InvalidSensorDataError]; and so does every [TypeError] or [KeyError]
    of the normalisation step. *)
Theorem malformed_payload_is_invalid_sensor_data
    self session self' data version :
  obtains self session self' data →
  py_getitem data "software_version" = Ok version →
  (malformed_payload data →
   (async_update self session).2
     = Raise (InvalidSensorDataError "Invalid sensor data")) ∧
  (∀ e, normalize data = Raise e →
     e = TypeError ∨ (∃ key, e = KeyError key) →
     (async_update self session).2
       = Raise (InvalidSensorDataError "Invalid sensor data")).
Proof.
  intros Hobt Hv.
  assert (Hgen : ∀ e, normalize data = Raise e →
            e = TypeError ∨ (∃ key, e = KeyError key) →
            (async_update self session).2
              = Raise (InvalidSensorDataError "Invalid sensor data")).
  { intros e He Hkind. rewrite (obtains_update _ _ _ _ Hobt).
    rewrite (process_payload_version _ _ _ Hv). simpl.
    unfold collect_sensors, parse_or_invalid. rewrite He.
    by destruct Hkind as [->|[key ->]]. }
  split; [|exact Hgen].
  intros Hbad. destruct (malformed_payload_raises _ Hbad) as [He|[key He]];
    eapply Hgen; eauto.
Qed.

End Normalize.

(** ** The derived index fields *)

Section Caqi.
Context {float : Type} {PN : PyNum float} {CO : Const} {LIB : @Library float}.
Implicit Types (sensors : gmap string (@sval float)) (sensor : string).


Lemma add_caqi_other sensors sensor k :
  k ≠ sensor +:+ "_caqi" → k ≠ sensor +:+ "_caqi_level" →
  add_caqi sensors sensor !! k = sensors !! k.
Proof.
  intros H1 H2. unfold add_caqi.
  destruct (get_caqi _ _) as [[v|] level]; [|done].
  destruct (-1 <? v); [|done].
  by rewrite !lookup_insert_ne.
Qed.



End Caqi.

(** ** Runs of updates, the cache budget and the state *)

Section Runs.
Context {float : Type} {PN : PyNum float} {CO : Const} {LIB : @Library float}.
Implicit Types (self : @NettigoAirMonitor float) (session : @ClientSession float).

Lemma down_request self session method url :
  down session →
  _async_http_request self session method url
    = Raise (NotRespondingError (not_responding self)).
Proof.
  intros Hdown. unfold _async_http_request.
  by destruct (Hdown method url) as [->| ->].
Qed.

Lemma process_payload_frame self data :
  host (process_payload self data).1 = host self ∧
  _options (process_payload self data).1 = _options self ∧
  _auth_enabled (process_payload self data).1 = _auth_enabled self ∧
  _last_data (process_payload self data).1 = _last_data self ∧
  _update_errors (process_payload self data).1 = _update_errors self.
Proof.
  unfold process_payload.
  by destruct (py_getitem data "software_version").
Qed.

(** What a call does to the counter and the cache when the device is
    down. *)
Lemma update_down_state self session :
  down session →
  py_bool (_last_data self) = true →
  _last_data (async_update self session).1 = _last_data self ∧
  _update_errors (async_update self session).1 =
    if _update_errors self <=? RESPONSES_FROM_CACHE
    then _update_errors self + 1 else _update_errors self.
Proof.
  intros Hdown Hcache. unfold async_update.
  rewrite (down_request _ _ _ _ Hdown), Hcache, andb_true_r.
  destruct (_update_errors self <=? RESPONSES_FROM_CACHE); [|done].
  by destruct (process_payload_frame
                 (set_update_errors self (_update_errors self + 1))
                 (_last_data self)) as (_ & _ & _ & -> & ->).
Qed.

(** X1. With a payload in the cache and the counter between 0 and
    [RESPONSES_FROM_CACHE + 1], a run of [n] calls against a device that
    is down leaves the counter at the smaller of its value plus [n] and
    [RESPONSES_FROM_CACHE + 1], and leaves the cache as it was: the
    fallback is taken [RESPONSES_FROM_CACHE + 1] times, one more than the
    constant. *)
Theorem fallback_budget self (sessions : list (@ClientSession float)) :
  Forall down sessions →
  py_bool (_last_data self) = true →
  0 <= _update_errors self <= RESPONSES_FROM_CACHE + 1 →
  _update_errors (updates self sessions) =
    Z.min (_update_errors self + Z.of_nat (length sessions))
          (RESPONSES_FROM_CACHE + 1) ∧
  _last_data (updates self sessions) = _last_data self.
Proof.
  intros Hall. revert self.
  induction Hall as [|session sessions Hdown _ IH]; intros self Hcache Hrange.
  { simpl. split; [lia|done]. }
  destruct (update_down_state _ _ Hdown Hcache) as [Hdata Herr].
  cbn [updates length].
  destruct (IH (async_update self session).1) as [-> ->].
  - by rewrite Hdata.
  - rewrite Herr.
    destruct (Z.leb_spec (_update_errors self) RESPONSES_FROM_CACHE); lia.
  - split; [|done]. rewrite Herr.
    destruct (Z.leb_spec (_update_errors self) RESPONSES_FROM_CACHE); lia.
Qed.

(** X2. Once the counter is past [RESPONSES_FROM_CACHE], a call against a
    device that is down raises [ApiError] with the not-responding message
    and changes nothing, although a payload is in the cache. *)
Theorem update_budget_spent self session :
  down session →
  RESPONSES_FROM_CACHE < _update_errors self →
  async_update self session = (self, Raise (ApiError (not_responding self))).
Proof.
  intros Hdown Hlt. unfold async_update.
  rewrite (down_request _ _ _ _ Hdown).
  apply Z.leb_gt in Hlt. by rewrite Hlt.
Qed.

Lemma initialize_frame self session :
  host (initialize self session).1 = host self ∧
  _options (initialize self session).1 = _options self ∧
  _last_data (initialize self session).1 = _last_data self ∧
  _update_errors (initialize self session).1 = _update_errors self.
Proof.
  unfold initialize.
  destruct (async_check_credentials self session) as [config|e].
  - destruct (py_getitem config "www_basicauth_enabled"); [|done].
    by destruct (py_get config "SOFTWARE_VERSION" (JStr "")).
  - by destruct e.
Qed.

(** X3. [async_update] never touches the host, the options or the
    auth-enabled flag, and [initialize] never touches the host, the
    options, the cache or the counter, whatever the transport does. *)
Theorem operations_frame self session :
  (host (async_update self session).1 = host self ∧
   _options (async_update self session).1 = _options self ∧
   _auth_enabled (async_update self session).1 = _auth_enabled self) ∧
  (host (initialize self session).1 = host self ∧
   _options (initialize self session).1 = _options self ∧
   _last_data (initialize self session).1 = _last_data self ∧
   _update_errors (initialize self session).1 = _update_errors self).
Proof.
  split; [|apply initialize_frame].
  unfold async_update.
  destruct (_async_http_request self session "get" _) as [resp|e].
  - destruct (resp_json resp) as [data|e]; [|done].
    by destruct (process_payload_frame
                   (set_update_errors (set_last_data self data) 0) data)
      as (-> & -> & -> & _).
  - destruct e; try done.
    destruct (_ && _); [|done].
    by destruct (process_payload_frame
                   (set_update_errors self (_update_errors self + 1))
                   (_last_data self)) as (-> & -> & -> & _).
Qed.

(** X4. The counter stays between 0 and [RESPONSES_FROM_CACHE + 1] over
    every call of [async_update], whatever the transport does. *)
Theorem update_counter_bounded self session :
  0 <= _update_errors self <= RESPONSES_FROM_CACHE + 1 →
  0 <= _update_errors (async_update self session).1
    <= RESPONSES_FROM_CACHE + 1.
Proof.
  intros Hrange. unfold async_update.
  destruct (_async_http_request self session "get" _) as [resp|e].
  - destruct (resp_json resp) as [data|e]; [|done].
    destruct (process_payload_frame
                (set_update_errors (set_last_data self data) 0) data)
      as (_ & _ & _ & _ & ->). simpl. lia.
  - destruct e; try done.
    destruct (Z.leb_spec (_update_errors self) RESPONSES_FROM_CACHE);
      simpl; [|done].
    destruct (py_bool (_last_data self)); [|done].
    destruct (process_payload_frame
                (set_update_errors self (_update_errors self + 1))
                (_last_data self)) as (_ & _ & _ & _ & ->). simpl. lia.
Qed.

(** X5. A call that falls back on the cache gives the result, sensors or
    error, that a call with a device answering that payload would give, and
    leaves the same software version. *)
Theorem fallback_same_as_fresh self session status
    (up : @ClientSession float) resp :
  _async_http_request self session "get" (data_url self)
    = Raise (NotRespondingError status) →
  _update_errors self <= RESPONSES_FROM_CACHE →
  py_bool (_last_data self) = true →
  _async_http_request self up "get" (data_url self) = Ok resp →
  resp_json resp = Ok (_last_data self) →
  (async_update self session).2 = (async_update self up).2 ∧
  _software_version (async_update self session).1
    = _software_version (async_update self up).1.
Proof.
  intros Hreq Hle Hcache Hup Hjson.
  rewrite (obtains_update _ _ _ _ (obtains_cached _ _ _ Hreq Hle Hcache)).
  rewrite (obtains_update _ _ _ _ (obtains_fresh _ _ _ _ Hup Hjson)).
  unfold process_payload.
  by destruct (py_getitem (_last_data self) "software_version").
Qed.

(** X6. A payload that was fetched is kept although its processing fails:
    when the device answers with a payload that has a software version, the
    state after the call has that payload in the cache, the counter at 0
    and that software version, whether the call returned sensors or
    raised. *)
Theorem update_commits_before_parsing self session resp data version :
  _async_http_request self session "get" (data_url self) = Ok resp →
  resp_json resp = Ok data →
  py_getitem data "software_version" = Ok version →
  (async_update self session).1 =
    set_software_version
      (set_update_errors (set_last_data self data) 0) version.
Proof.
  intros Hreq Hjson Hv.
  rewrite (obtains_update _ _ _ _ (obtains_fresh _ _ _ _ Hreq Hjson)).
  by rewrite (process_payload_version _ _ _ Hv).
Qed.

(** X7. [initialize] is all or nothing: when it raises, the state is as it
    was. *)
Theorem initialize_failure_atomic self session e :
  (initialize self session).2 = Raise e →
  (initialize self session).1 = self.
Proof.
  unfold initialize.
  destruct (async_check_credentials self session) as [config|e'].
  - destruct config as [| | | | | |entries]; try done. simpl.
    by destruct (dict_get entries "www_basicauth_enabled").
  - by destruct e'.
Qed.

(** X8. The first update of an instance that [create] returned, against a
    device that is down, raises [ApiError] with the not-responding message
    for the host of the options, and leaves the instance as it was: there
    is nothing to fall back on. *)
Theorem create_then_down_update
    (session0 session : @ClientSession float) options instance :
  create session0 options = Ok instance →
  down session →
  async_update instance session =
    (instance,
     Raise (ApiError ("The device " +:+ opt_host options
                      +:+ " is not responding"))).
Proof.
  unfold create. intros Hcreate Hdown.
  destruct (initialize_frame (__init__ options) session0)
    as (Hhost & _ & Hdata & _).
  destruct (initialize (__init__ options) session0) as [inst r] eqn:Hinit.
  destruct r; [|done]. injection Hcreate as ->. simpl in *.
  unfold async_update. rewrite (down_request _ _ _ _ Hdown).
  rewrite Hdata, andb_false_r. unfold not_responding. by rewrite Hhost.
Qed.

(** X9. An instance that [create] returned from a device answering the
    config request with 401 has the auth-enabled flag set, and reading its
    [software_version] raises [AttributeError]: the attribute was never
    assigned. *)
Theorem create_unauthorized_version_unset
    (session : @ClientSession float) options :
  session "get" (_construct_url ATTR_CONFIG (opt_host options))
    = Raise (ClientResponseError 401) →
  ∃ instance,
    create session options = Ok instance ∧
    auth_enabled instance = JBool true ∧
    software_version instance = Raise AttributeError.
Proof.
  intros Hs. exists (set_auth_enabled (__init__ options) (JBool true)).
  unfold create, initialize, async_check_credentials.
  by rewrite (request_unauthorized _ _ _ _ Hs).
Qed.

End Runs.

(** ** More on the request boundary *)

Section Boundary.
Context {float : Type} {PN : PyNum float} {CO : Const} {LIB : @Library float}.
Implicit Types (self : @NettigoAirMonitor float) (session : @ClientSession float).

(** X10. [_async_http_request] returns a response only when the transport
    returned that very response and its status is 200. *)
Theorem request_returns_only_200 self session method url resp :
  _async_http_request self session method url = Ok resp →
  session method url = Ok resp ∧ resp_status resp = 200.
Proof.
  unfold _async_http_request.
  destruct (session method url) as [r|e].
  - destruct (Z.eqb_spec (resp_status r) 200); simpl; [|done].
    by intros [= ->].
  - destruct e; try done. by destruct (_ =? _).
Qed.

Lemma post_outcome self session url :
  match _async_http_request self session "post" url with
  | Raise (NotRespondingError status) => Raise (ApiError status)
  | Raise e => Raise e
  | Ok _ => Ok ()
  end = Ok () ↔
  ∃ resp, session "post" url = Ok resp ∧ resp_status resp = 200.
Proof.
  unfold _async_http_request.
  destruct (session "post" url) as [resp|e] eqn:Hs.
  - destruct (Z.eqb_spec (resp_status resp) 200) as [Hst|Hst]; simpl.
    + split; [|done]. intros _. by exists resp.
    + split; [done|]. by intros (r & [= <-] & ?).
  - split; [|by intros (r & ? & _)].
    destruct e; try done. by destruct (_ =? _).
Qed.

(** X11. [async_restart] and [async_ota_update] succeed exactly when the
    device answers the POST to their endpoint with status 200, and neither
    ever raises the not-responding error: it is raised as [ApiError]. *)
Theorem post_operations self session :
  (async_restart self session = Ok () ↔
   ∃ resp, session "post" (_construct_url ATTR_RESTART (host self)) = Ok resp
           ∧ resp_status resp = 200) ∧
  (async_ota_update self session = Ok () ↔
   ∃ resp, session "post" (_construct_url ATTR_OTA (host self)) = Ok resp
           ∧ resp_status resp = 200) ∧
  (∀ status, async_restart self session ≠ Raise (NotRespondingError status)) ∧
  (∀ status,
     async_ota_update self session ≠ Raise (NotRespondingError status)).
Proof.
  split; [apply post_outcome|]. split; [apply post_outcome|].
  split; intros status; unfold async_restart, async_ota_update;
    destruct (_async_http_request self session "post" _) as [resp|e];
    try done; by destruct e.
Qed.

End Boundary.

(** ** More on the normalised sensor map *)

Section Keys.
Context {float : Type} {PN : PyNum float} {CO : Const} {LIB : @Library float}.
Implicit Types (items : list (@json float)) (m acc : gmap string float).

Lemma ascii_lower_idemp (c : ascii) : ascii_lower (ascii_lower c) = ascii_lower c.
Proof. by destruct c as [[] [] [] [] [] [] [] []]. Qed.

Lemma str_lower_idemp (s : string) : str_lower (str_lower s) = str_lower s.
Proof.
  induction s as [|c s IH]; [done|]. simpl. by rewrite ascii_lower_idemp, IH.
Qed.

Lemma parse_item_inv (item : @json float) k v :
  parse_item item = Ok (k, v) →
  ∃ value_type raw x,
    py_getitem item "value_type" = Ok (JStr value_type) ∧
    py_getitem item "value" = Ok raw ∧
    py_float raw = Ok x ∧
    k = str_lower value_type ∧ v = float_round1 x.
Proof.
  unfold parse_item.
  destruct (py_getitem item "value_type") as [vt|] eqn:Hvt; simpl; [|done].
  destruct vt as [| | | |value_type| |]; simpl; try done.
  destruct (py_getitem item "value") as [raw|] eqn:Hraw; simpl; [|done].
  destruct (py_float raw) as [x|] eqn:Hx; simpl; [|done].
  intros [= <- <-]. by exists value_type, raw, x.
Qed.

Lemma build_result_keys items acc m k v :
  build_result items acc = Ok m → m !! k = Some v →
  acc !! k = Some v ∨ ∃ item, item ∈ items ∧ parse_item item = Ok (k, v).
Proof.
  revert acc. induction items as [|item items IH]; intros acc Hb Hk; simpl in Hb.
  { injection Hb as ->. by left. }
  destruct (parse_item item) as [[k' v']|] eqn:Hitem; simpl in Hb; [|done].
  destruct (IH _ Hb Hk) as [Hacc|(x & Hx & Hpx)].
  - apply lookup_insert_Some in Hacc as [[<- <-]|[_ Hacc]].
    + right. exists item. split; [apply list_elem_of_here|done].
    + by left.
  - right. exists x. split; [by apply list_elem_of_further|done].
Qed.

Lemma build_result_all_readings items acc m :
  build_result items acc = Ok m → Forall is_reading items.
Proof.
  revert acc. induction items as [|item items IH]; intros acc Hb; simpl in Hb.
  { constructor. }
  destruct (parse_item item) as [kv|] eqn:Hitem; simpl in Hb; [|done].
  constructor; [by exists kv|by eapply IH].
Qed.

Lemma rename_keys_origin (table : list (string * string)) m k v :
  foldl rename_step m table !! k = Some v →
  k ∈ table.*2 ∨ m !! k = Some v.
Proof.
  revert m. induction table as [|[old new] table IH]; intros m Hk.
  { by right. }
  simpl in *. destruct (IH _ Hk) as [Hin|Hm].
  { left. by apply list_elem_of_further. }
  unfold rename_step in Hm; simpl in Hm.
  destruct (m !! old) as [w|]; [|by right].
  apply lookup_insert_Some in Hm as [[<- _]|[_ Hm]].
  - left. apply list_elem_of_here.
  - right. by apply lookup_delete_Some in Hm as [_ ?].
Qed.

(** X12. Every key of the map [_parse_sensor_data] returns is a canonical
    key of the rename table or the lower-cased [value_type] of one of the
    readings, and such a key is in lower case. *)
Theorem parsed_keys_come_from_readings (data : @json float) items result k v :
  py_iter data = Ok items →
  _parse_sensor_data data = Ok result →
  result !! k = Some v →
  k ∈ RENAME_KEY_MAP.*2 ∨
  (str_lower k = k ∧ ∃ item, item ∈ items ∧ reading_key item = Some k).
Proof.
  intros Hiter. unfold _parse_sensor_data. rewrite Hiter. simpl.
  destruct (build_result items ∅) as [built|] eqn:Hb; simpl; [|done].
  intros [= <-] Hk.
  destruct (rename_keys_origin _ _ _ _ Hk) as [?|Hc]; [by left|right].
  rewrite lookup_convert_pressure in Hc.
  destruct (built !! k) as [v0|] eqn:Hv0; [|done].
  destruct (build_result_keys _ _ _ _ _ Hb Hv0) as [Hempty|(item & Hin & Hitem)].
  { by rewrite lookup_empty in Hempty. }
  destruct (parse_item_inv _ _ _ Hitem) as (vt & _ & _ & _ & _ & _ & -> & _).
  split; [apply str_lower_idemp|].
  exists item. split; [done|]. unfold reading_key. by rewrite Hitem.
Qed.

(** X13. A sensor list that is an empty list, an empty string or an empty
    dict is accepted and gives the empty map; a string or a dict that is
    not empty raises [TypeError], and so does what cannot be iterated. *)
Theorem parse_degenerate_shapes :
  _parse_sensor_data (JList []) = Ok ∅ ∧
  _parse_sensor_data (JStr "") = Ok ∅ ∧
  _parse_sensor_data (JDict []) = Ok ∅ ∧
  (∀ c s, _parse_sensor_data (JStr (String c s)) = Raise TypeError) ∧
  (∀ entry entries,
     _parse_sensor_data (JDict (entry :: entries)) = Raise TypeError) ∧
  _parse_sensor_data JNull = Raise TypeError ∧
  (∀ n, _parse_sensor_data (JInt n) = Raise TypeError).
Proof.
  assert (Hempty : rename_keys (convert_pressure (∅ : gmap string float)) = ∅).
  { unfold convert_pressure. rewrite map_imap_empty.
    apply rename_noop. intros k _. apply lookup_empty. }
  unfold _parse_sensor_data. simpl. rewrite Hempty. by repeat split.
Qed.

(** X14. A legacy key is converted by its legacy name and then moved: with
    a well-formed rename table, the last reading stored under the legacy
    key of an entry ends up under the canonical key, divided by 100 when
    the legacy key, not the canonical one, contains ["pressure"], and the
    legacy key is absent. *)
Theorem legacy_reading_converted_then_moved
    before item after old_key new_key v :
  table_ok RENAME_KEY_MAP →
  (old_key, new_key) ∈ RENAME_KEY_MAP →
  Forall is_reading (before ++ item :: after) →
  parse_item item = Ok (old_key, v) →
  Forall (λ later, reading_key later ≠ Some old_key) after →
  ∃ result,
    _parse_sensor_data (JList (before ++ item :: after)) = Ok result ∧
    result !! old_key = None ∧
    result !! new_key =
      Some (if str_contains "pressure" old_key then float_div v 100 else v).
Proof.
  intros Hok Hin Hall Hitem Hafter.
  destruct (build_result_total _ ∅ Hall) as [m Hm].
  exists (rename_keys (convert_pressure m)). split; [|split].
  - unfold _parse_sensor_data. simpl. by rewrite Hm.
  - apply rename_old_gone.
    + apply list_elem_of_fmap. by exists (old_key, new_key).
    + destruct Hok as (_ & _ & Hd). rewrite Forall_forall in Hd.
      apply Hd. apply list_elem_of_fmap. by exists (old_key, new_key).
  - eapply rename_moved; [done|done|].
    rewrite lookup_convert_pressure.
    by rewrite (build_result_last _ _ _ _ _ _ _ Hm Hitem Hafter).
Qed.

End Keys.

(** ** What the update passes on *)

Section Passing.
Context {float : Type} {PN : PyNum float} {CO : Const} {LIB : @Library float}.
Implicit Types (self : @NettigoAirMonitor float) (session : @ClientSession float).
Implicit Types (sensors : gmap string (@sval float)).

Lemma caqi_keys_eq :
  caqi_keys = ["pms_caqi"; "pms_caqi_level"; "sds011_caqi";
               "sds011_caqi_level"; "sps30_caqi"; "sps30_caqi_level"].
Proof. reflexivity. Qed.

Lemma derive_caqi_other sensors k :
  k ∉ caqi_keys → derive_caqi sensors !! k = sensors !! k.
Proof.
  rewrite caqi_keys_eq, !not_elem_of_cons.
  intros (? & ? & ? & ? & ? & ? & _).
  unfold derive_caqi, families. simpl.
  by rewrite !add_caqi_other.
Qed.

Lemma add_uptime_other (data : @json float) sensors sensors' k :
  add_uptime data sensors = Ok sensors' → k ≠ ATTR_UPTIME →
  sensors' !! k = sensors !! k.
Proof.
  unfold add_uptime. intros Hu Hk.
  destruct (py_in ATTR_UPTIME data) as [[]|]; simpl in Hu; try done.
  - destruct (py_getitem data ATTR_UPTIME) as [raw|]; simpl in Hu; [|done].
    destruct (py_int raw) as [n|]; simpl in Hu; [|done].
    injection Hu as <-. by rewrite lookup_insert_ne.
  - by injection Hu as <-.
Qed.

(** X15. Every reading reaches the result as it was normalised: in the
    dictionary handed to [from_dict], a key that is neither ["uptime"] nor
    one of the six derived keys holds what the normalised map holds, as a
    float, and is absent when the map has not the key. *)
Theorem readings_pass_through (data : @json float) parsed result k :
  parse_or_invalid data = Ok parsed →
  collect_sensors data = Ok result →
  k ≠ ATTR_UPTIME → k ∉ caqi_keys →
  result !! k = VFloat <$> parsed !! k.
Proof.
  intros Hp. unfold collect_sensors. rewrite Hp. simpl.
  destruct (add_uptime data (VFloat <$> parsed)) as [sensors|] eqn:Hu;
    simpl; [|done].
  intros [= <-] Hk Hc.
  rewrite (derive_caqi_other _ _ Hc), (add_uptime_other _ _ _ _ Hu Hk).
  apply lookup_fmap.
Qed.

(** X16. The uptime is converted outside the [try] of the normalisation:
    for a payload with a software version, a sensor list that normalises
    and an [uptime] entry, the result holds [int(uptime)] under ["uptime"]
    when the conversion succeeds, whatever reading had that name; when
    [int] raises, [async_update] raises that very error, not
    [InvalidSensorDataError]. *)
Theorem uptime_converted_outside_try
    self session self' entries version parsed raw :
  obtains self session self' (JDict entries) →
  dict_get entries "software_version" = Some version →
  parse_or_invalid (JDict entries) = Ok parsed →
  dict_get entries ATTR_UPTIME = Some raw →
  match py_int raw with
  | Ok n =>
      ∃ sensors,
        collect_sensors (JDict entries) = Ok sensors ∧
        sensors !! ATTR_UPTIME = Some (VInt n) ∧
        (async_update self session).2 = from_dict sensors
  | Raise e => (async_update self session).2 = Raise e
  end.
Proof.
  intros Hobt Hv Hp Hup.
  rewrite (obtains_update _ _ _ _ Hobt).
  rewrite (process_payload_version _ _ version) by (simpl; by rewrite Hv).
  simpl. unfold collect_sensors. rewrite Hp. simpl.
  unfold add_uptime. simpl. unfold dict_has. rewrite Hup. simpl.
  destruct (py_int raw) as [n|e]; simpl; [|done].
  eexists. split; [reflexivity|]. split; [|done].
  rewrite derive_caqi_other
    by (rewrite caqi_keys_eq; apply (bool_decide_unpack _); by vm_compute).
  apply lookup_insert_eq.
Qed.

(** X17. One reading that is not well formed fails the whole update: a
    call that returns sensors has processed a dict with a
    [sensordatavalues] entry that can be iterated and whose items are all
    well-formed readings. *)
Theorem update_ok_all_readings self session self' result :
  async_update self session = (self', Ok result) →
  ∃ entries values items,
    _last_data self' = JDict entries ∧
    dict_get entries "sensordatavalues" = Some values ∧
    py_iter values = Ok items ∧
    Forall is_reading items.
Proof.
  intros Hok.
  destruct (update_ok_payload _ _ _ _ Hok) as (st & _ & Hst).
  destruct (process_payload_ok _ _ _ _ Hst)
    as (entries & version & Hd & _ & _ & Hsens).
  exists entries. rewrite Hd in *. clear Hd Hst Hok.
  unfold collect_sensors, parse_or_invalid, normalize in Hsens.
  simpl in Hsens.
  destruct (dict_get entries "sensordatavalues") as [values|]; [|done].
  exists values. simpl in Hsens. unfold _parse_sensor_data in Hsens.
  destruct (py_iter values) as [items|e]; simpl in Hsens;
    [|by destruct e].
  exists items.
  destruct (build_result items ∅) as [built|e] eqn:Hb; simpl in Hsens;
    [|by destruct e].
  repeat split. by eapply build_result_all_readings.
Qed.

End Passing.

(** ** More on the initialisation and on the readings *)

Section Further.
Context {float : Type} {PN : PyNum float} {CO : Const} {LIB : @Library float}.
Implicit Types (self : @NettigoAirMonitor float) (session : @ClientSession float).
Implicit Types (items : list (@json float)) (m acc : gmap string float).

(** X18. [initialize] needs the [www_basicauth_enabled] entry: when the
    device answers the config request with a dict that lacks it,
    [initialize] raises [KeyError] for that key, and with an answer that is
    no dict it raises [TypeError]; in both cases the state is as it was,
    also when the answer has a [SOFTWARE_VERSION]. *)
Theorem initialize_requires_auth_flag self session resp config :
  session "get" (config_url self) = Ok resp →
  resp_status resp = 200 →
  resp_json resp = Ok config →
  (∀ entries, config = JDict entries →
     dict_get entries "www_basicauth_enabled" = None →
     initialize self session
       = (self, Raise (KeyError "www_basicauth_enabled"))) ∧
  ((∀ entries, config ≠ JDict entries) →
   initialize self session = (self, Raise TypeError)).
Proof.
  intros Hs Hst Hjson.
  unfold initialize, async_check_credentials. fold (config_url self).
  rewrite (request_ok _ _ _ _ _ Hs Hst), Hjson. split.
  - intros entries -> Hnone. simpl. by rewrite Hnone.
  - intros Hnd. destruct config; try done. by destruct (Hnd entries).
Qed.

(** X19. Neither [initialize] nor [create] ever raises
    [AuthFailedError]: an authorization failure of the config request is
    recorded in the flag. *)
Theorem initialize_absorbs_auth_failure self session options status :
  (initialize self session).2 ≠ Raise (AuthFailedError status) ∧
  create session options ≠ Raise (AuthFailedError status).
Proof.
  assert (Hinit : ∀ s, (initialize s session).2 ≠ Raise (AuthFailedError status)).
  { intros s. unfold initialize.
    destruct (async_check_credentials s session) as [config|e].
    - destruct config as [| | | | | |entries]; try done. simpl.
      by destruct (dict_get entries "www_basicauth_enabled").
    - by destruct e. }
  split; [apply Hinit|].
  unfold create. specialize (Hinit (__init__ options)).
  destruct (initialize (__init__ options) session) as [inst [|e]]; [done|].
  simpl in Hinit. congruence.
Qed.

Lemma build_result_present items acc m k :
  build_result items acc = Ok m → is_Some (acc !! k) → is_Some (m !! k).
Proof.
  revert acc. induction items as [|item items IH]; intros acc Hb Hk; simpl in Hb.
  { by injection Hb as <-. }
  destruct (parse_item item) as [[k' v']|]; simpl in Hb; [|done].
  apply (IH _ Hb). destruct (decide (k' = k)) as [->|].
  - rewrite lookup_insert_eq. by eexists.
  - by rewrite lookup_insert_ne.
Qed.

Lemma build_result_covers items acc m item k :
  build_result items acc = Ok m → item ∈ items →
  reading_key item = Some k → is_Some (m !! k).
Proof.
  revert acc. induction items as [|x items IH]; intros acc Hb Hin Hk.
  { by apply elem_of_nil in Hin. }
  simpl in Hb. destruct (parse_item x) as [[k' v']|] eqn:Hx; simpl in Hb;
    [|done].
  apply elem_of_cons in Hin as [->|Hin]; [|by eapply IH].
  unfold reading_key in Hk. rewrite Hx in Hk. injection Hk as <-.
  apply (build_result_present _ _ _ _ Hb).
  rewrite lookup_insert_eq. by eexists.
Qed.

(** X20. No reading is dropped: when every item of the list is a
    well-formed reading, the map has an entry for the lower-cased
    [value_type] of each of them that the rename table does not mention. *)
Theorem every_reading_has_an_entry items item k :
  Forall is_reading items →
  item ∈ items →
  reading_key item = Some k →
  k ∉ RENAME_KEY_MAP.*1 → k ∉ RENAME_KEY_MAP.*2 →
  ∃ result, _parse_sensor_data (JList items) = Ok result ∧
            is_Some (result !! k).
Proof.
  intros Hall Hin Hk Ho Hn.
  destruct (build_result_total _ ∅ Hall) as [m Hm].
  exists (rename_keys (convert_pressure m)). split.
  - unfold _parse_sensor_data. simpl. by rewrite Hm.
  - unfold rename_keys. rewrite rename_untouched by done.
    rewrite lookup_convert_pressure.
    destruct (build_result_covers _ _ _ _ _ Hm Hin Hk) as [v ->].
    by eexists.
Qed.

End Further.

(** * The client on a concrete device *)

Section Examples.
#[local] Existing Instances demo_num demo_const demo_lib.

Lemma res_ok_eq {A} (d : A) (r : res A) :
  is_ok r = true → r = Ok (from_res d r).
Proof. by destruct r. Qed.

Ltac evaluated := apply res_ok_eq; vm_compute; reflexivity.

Ltac decided := apply (bool_decide_unpack _); vm_compute; exact I.

Example demo_first_sensors : demo_first.2 = Ok demo_sensors.
Proof. vm_compute. reflexivity. Qed.

Lemma update_fallback_then_reset_witness :
  (∃ self',
     async_update demo_first.1 (failing TimeoutError)
       = (self', Ok demo_sensors) ∧
     _update_errors self' = _update_errors demo_first.1 + 1 ∧
     _last_data self' = _last_data demo_first.1) ∧
  _update_errors
    (async_update demo_first.1 (answering 200 (demo_payload (JList [])))).1
    = 0 ∧
  _last_data
    (async_update demo_first.1 (answering 200 (demo_payload (JList [])))).1
    = demo_payload (JList []).
Proof.
  apply (update_fallback_then_reset
           demo_monitor (answering 200 (demo_payload (JList demo_values)))
           demo_first.1 demo_sensors
           demo_first.1 (failing TimeoutError)
           "The device 10.0.0.2 is not responding"
           demo_first.1 (answering 200 (demo_payload (JList [])))
           {| resp_status := 200;
              resp_json := Ok (demo_payload (JList [])) |}
           (demo_payload (JList []))).
  - vm_compute. reflexivity.
  - reflexivity.
  - vm_compute. reflexivity.
  - vm_compute. discriminate.
  - vm_compute. reflexivity.
  - reflexivity.
Defined.

Lemma update_without_cache_raises_witness :
  async_update demo_monitor (failing ClientConnectorError)
    = (demo_monitor, Raise (ApiError "The device 10.0.0.2 is not responding")).
Proof.
  apply (update_without_cache_raises demo_monitor
           (failing ClientConnectorError)).
  - vm_compute. reflexivity.
  - reflexivity.
Defined.

Lemma update_requires_software_version_witness :
  async_update demo_monitor
      (answering 200 (JDict [("sensordatavalues", JInt 5)]))
    = (set_update_errors
         (set_last_data demo_monitor (JDict [("sensordatavalues", JInt 5)])) 0,
       Raise (KeyError "software_version")).
Proof.
  apply (update_requires_software_version demo_monitor
           (answering 200 (JDict [("sensordatavalues", JInt 5)]))
           (set_update_errors
              (set_last_data demo_monitor
                 (JDict [("sensordatavalues", JInt 5)])) 0)
           (JDict [("sensordatavalues", JInt 5)])
           [("sensordatavalues", JInt 5)]).
  - by eapply obtains_fresh.
  - reflexivity.
  - reflexivity.
Defined.

Lemma request_translates_errors_witness :
  _async_http_request demo_monitor (failing (ClientResponseError 401))
      "get" "http://10.0.0.2/data.json"
    = Raise (AuthFailedError "Authorization has failed") ∧
  _async_http_request demo_monitor (failing (ClientResponseError 500))
      "get" "http://10.0.0.2/data.json"
    = Raise (ApiError "Invalid response from device 10.0.0.2: 500") ∧
  _async_http_request demo_monitor (answering 204 JNull)
      "post" "http://10.0.0.2/reset"
    = Raise (ApiError "Invalid response from device 10.0.0.2: 204") ∧
  _async_http_request demo_monitor (failing TimeoutError)
      "get" "http://10.0.0.2/data.json"
    = Raise (NotRespondingError "The device 10.0.0.2 is not responding") ∧
  _async_http_request demo_monitor (answering 200 JNull)
      "get" "http://10.0.0.2/data.json"
    = Ok {| resp_status := 200; resp_json := Ok JNull |}.
Proof.
  split; [|split; [|split; [|split]]].
  - by apply (request_translates_errors demo_monitor
                (failing (ClientResponseError 401))).
  - destruct (request_translates_errors demo_monitor
                (failing (ClientResponseError 500))
                "get" "http://10.0.0.2/data.json") as (_ & H & _).
    by apply (H 500).
  - destruct (request_translates_errors demo_monitor (answering 204 JNull)
                "post" "http://10.0.0.2/reset") as (_ & _ & H & _).
    by apply (H {| resp_status := 204; resp_json := Ok JNull |}).
  - destruct (request_translates_errors demo_monitor (failing TimeoutError)
                "get" "http://10.0.0.2/data.json") as (_ & _ & _ & H & _).
    apply H. by right.
  - destruct (request_translates_errors demo_monitor (answering 200 JNull)
                "get" "http://10.0.0.2/data.json") as (_ & _ & _ & _ & H).
    by apply (H {| resp_status := 200; resp_json := Ok JNull |}).
Defined.

(** C3 fails as stated: an exception of the transport that is neither a
    response error, a connector error nor a timeout leaves
    [_async_http_request] as it came. *)
Lemma request_lets_other_errors_through :
  _async_http_request demo_monitor
      (failing (OtherError "ServerDisconnectedError"))
      "get" "http://10.0.0.2/data.json"
    = Raise (OtherError "ServerDisconnectedError") ∧
  is_domain_error (OtherError "ServerDisconnectedError") = false.
Proof. split; reflexivity. Qed.

Lemma initialize_sets_auth_and_version_witness :
  ((initialize demo_monitor (failing (ClientResponseError 401))).2 = Ok () ∧
   _auth_enabled (initialize demo_monitor
                    (failing (ClientResponseError 401))).1 = JBool true ∧
   _software_version (initialize demo_monitor
                        (failing (ClientResponseError 401))).1
     = _software_version demo_monitor ∧
   (∀ options, demo_monitor = __init__ options →
      _software_version (initialize demo_monitor
                           (failing (ClientResponseError 401))).1 = None)) ∧
  ((initialize demo_monitor (answering 200 demo_config)).2 = Ok () ∧
   _auth_enabled (initialize demo_monitor (answering 200 demo_config)).1
     = JBool true ∧
   _software_version (initialize demo_monitor (answering 200 demo_config)).1
     = Some (JStr "NAMF-2020-36")).
Proof.
  apply (initialize_sets_auth_and_version demo_monitor
           (failing (ClientResponseError 401)) (answering 200 demo_config)
           {| resp_status := 200; resp_json := Ok demo_config |}
           [("www_basicauth_enabled", JBool true);
            ("SOFTWARE_VERSION", JStr "NAMF-2020-36")]
           (JBool true)); reflexivity.
Defined.

Lemma demo_values_readings : Forall is_reading demo_values.
Proof. repeat constructor; eexists; vm_compute; reflexivity. Qed.

Lemma demo_table_ok : table_ok RENAME_KEY_MAP.
Proof. repeat split; decided. Qed.

(** Takes the entries of the table that rename to the key at hand one by
    one: those that do not are dismissed, and for the one that does the
    readings are looked through. *)
Ltac no_legacy_reading :=
  let old := fresh "old" in
  let Hin := fresh "Hin" in
  intros old Hin;
  unfold RENAME_KEY_MAP, demo_const in Hin;
  rewrite !elem_of_cons, elem_of_nil in Hin;
  repeat (destruct Hin as [Hin|Hin]);
  try done;
  simpl in Hin; simplify_eq;
  repeat constructor; vm_compute; discriminate.

Lemma pressure_rounded_then_divided_witness :
  ∃ result,
    _parse_sensor_data (JList bmp_values) = Ok result ∧
    result !! "bmp180_pressure" = Some 1000000.
Proof.
  refine (pressure_rounded_then_divided
            [reading "PMS_P1" (JStr "40")]
            (reading "BMP180_pressure" (JInt 100000)) []
            "BMP180_pressure" (JInt 100000) 100000000 _ _ _ _ _ _ _ _).
  - exact demo_table_ok.
  - repeat constructor; eexists; vm_compute; reflexivity.
  - reflexivity.
  - reflexivity.
  - reflexivity.
  - reflexivity.
  - constructor.
  - no_legacy_reading.
Defined.

(** C4 fails as stated: the reading [BMP180_pressure] of 100000 is not
    stored as [round(100000, 1) / 100], which is 1000, when a reading under
    the legacy name [BMP_pressure] follows: the renaming moves the legacy
    value, 900, over it. *)
Lemma pressure_overwritten_by_legacy_reading :
  is_ok (_parse_sensor_data (JList bmp_clash_values)) = true ∧
  from_res ∅ (_parse_sensor_data (JList bmp_clash_values))
    !! "bmp180_pressure" = Some 900000 ∧
  str_contains "pressure" (str_lower "BMP180_pressure") = true ∧
  py_float (JInt 100000) = Ok 100000000 ∧
  float_div (float_round1 100000000) 100 = 1000000.
Proof. split; [|split; [|split; [|split]]]; vm_compute; reflexivity. Qed.

Lemma duplicate_readings_last_wins_witness :
  ∃ result,
    _parse_sensor_data (JList temperature_values) = Ok result ∧
    result !! "dht22_temperature" = Some 7000.
Proof.
  refine (duplicate_readings_last_wins
            [reading "temperature" (JInt 5)]
            (reading "temperature" (JInt 5))
            (reading "TEMPERATURE" (JInt 7)) []
            "TEMPERATURE" (JInt 7) 7000 _ _ _ _ _ _ _ _ _).
  - exact demo_table_ok.
  - repeat constructor; eexists; vm_compute; reflexivity.
  - apply list_elem_of_here.
  - reflexivity.
  - reflexivity.
  - reflexivity.
  - reflexivity.
  - constructor.
  - no_legacy_reading.
Defined.

(** C10 fails as stated: of the readings [dht22_humidity] 50 and
    [DHT22_humidity] 60 the map does not hold the last, 60, when a reading
    under the legacy name [humidity] is in the list: the renaming moves the
    legacy value, 45, over it. *)
Lemma duplicates_overwritten_by_legacy_reading :
  is_ok (_parse_sensor_data (JList humidity_clash_values)) = true ∧
  from_res ∅ (_parse_sensor_data (JList humidity_clash_values))
    !! "dht22_humidity" = Some 45000 ∧
  str_lower "DHT22_humidity" = "dht22_humidity" ∧
  py_float (JInt 60) = Ok 60000 ∧
  float_round1 60000 = 60000.
Proof. split; [|split; [|split; [|split]]]; vm_compute; reflexivity. Qed.

Lemma rename_moves_legacy_keys_witness :
  ∃ result,
    _parse_sensor_data (JList demo_values) = Ok result ∧
    result !! "temperature" = None ∧
    (∀ value, convert_pressure demo_built !! "temperature" = Some value →
       result !! "dht22_temperature" = Some value) ∧
    (convert_pressure demo_built !! "temperature" = None →
       result !! "dht22_temperature"
         = convert_pressure demo_built !! "dht22_temperature") ∧
    rename_keys result = result.
Proof.
  apply (rename_moves_legacy_keys (JList demo_values) demo_values demo_built
           "temperature" "dht22_temperature").
  - exact demo_table_ok.
  - decided.
  - reflexivity.
  - evaluated.
Defined.



Lemma malformed_payload_is_invalid_sensor_data_witness :
  (async_update demo_monitor
     (answering 200
        (demo_payload (JList [JDict [("value_type", JStr "temperature")]])))).2
    = Raise (InvalidSensorDataError "Invalid sensor data").
Proof.
  assert (Hobt : obtains demo_monitor
            (answering 200
               (demo_payload
                  (JList [JDict [("value_type", JStr "temperature")]])))
            _ _) by (by eapply obtains_fresh).
  apply (proj1 (malformed_payload_is_invalid_sensor_data _ _ _ _
                  (JStr "NAMF-2020-36") Hobt eq_refl)).
  eapply (payload_bad_item _ _ [] _ []);
    [reflexivity|reflexivity|constructor|].
  by eapply item_no_value.
Defined.

(** C8 fails as stated: a reading whose value is not a number lets the
    [ValueError] of [float] through, and one whose [value_type] is not a
    string the [AttributeError] of [lower]. *)
Lemma normalization_lets_other_errors_through :
  (async_update demo_monitor
     (answering 200
        (demo_payload (JList [reading "temperature" (JStr "abc")])))).2
    = Raise ValueError ∧
  (async_update demo_monitor
     (answering 200
        (demo_payload
           (JList [JDict [("value_type", JInt 5); ("value", JInt 1)]])))).2
    = Raise AttributeError.
Proof. split; vm_compute; reflexivity. Qed.

(** ** The further properties on the concrete device *)

Lemma failing_down : down (failing TimeoutError).
Proof. intros method url. by right. Qed.

Lemma fallback_budget_witness :
  _update_errors (updates demo_first.1 (replicate 7 (failing TimeoutError)))
    = 5 ∧
  _last_data (updates demo_first.1 (replicate 7 (failing TimeoutError)))
    = _last_data demo_first.1.
Proof.
  refine (fallback_budget demo_first.1
            (replicate 7 (failing TimeoutError)) _ _ _).
  - repeat constructor; apply failing_down.
  - reflexivity.
  - vm_compute. split; discriminate.
Defined.

Lemma update_budget_spent_witness :
  async_update (set_update_errors demo_first.1 5) (failing TimeoutError)
    = (set_update_errors demo_first.1 5,
       Raise (ApiError "The device 10.0.0.2 is not responding")).
Proof.
  refine (update_budget_spent (set_update_errors demo_first.1 5)
            (failing TimeoutError) _ _).
  - apply failing_down.
  - reflexivity.
Defined.

Lemma update_counter_bounded_witness :
  0 <= _update_errors
         (async_update (set_update_errors demo_first.1 5)
            (failing TimeoutError)).1 <= 5.
Proof.
  refine (update_counter_bounded (set_update_errors demo_first.1 5)
            (failing TimeoutError) _).
  vm_compute. split; discriminate.
Defined.

Lemma fallback_same_as_fresh_witness :
  (async_update demo_first.1 (failing TimeoutError)).2
    = (async_update demo_first.1
         (answering 200 (demo_payload (JList demo_values)))).2 ∧
  _software_version (async_update demo_first.1 (failing TimeoutError)).1
    = _software_version
        (async_update demo_first.1
           (answering 200 (demo_payload (JList demo_values)))).1.
Proof.
  refine (fallback_same_as_fresh demo_first.1 (failing TimeoutError)
            "The device 10.0.0.2 is not responding"
            (answering 200 (demo_payload (JList demo_values)))
            {| resp_status := 200;
               resp_json := Ok (demo_payload (JList demo_values)) |}
            _ _ _ _ _).
  - vm_compute. reflexivity.
  - vm_compute. discriminate.
  - reflexivity.
  - vm_compute. reflexivity.
  - reflexivity.
Defined.

Lemma update_commits_before_parsing_witness :
  (async_update demo_monitor (answering 200 (demo_payload (JInt 5)))).1
    = set_software_version
        (set_update_errors
           (set_last_data demo_monitor (demo_payload (JInt 5))) 0)
        (JStr "NAMF-2020-36").
Proof.
  refine (update_commits_before_parsing demo_monitor
            (answering 200 (demo_payload (JInt 5)))
            {| resp_status := 200; resp_json := Ok (demo_payload (JInt 5)) |}
            (demo_payload (JInt 5)) (JStr "NAMF-2020-36") _ _ _);
    reflexivity.
Defined.

Lemma initialize_failure_atomic_witness :
  (initialize demo_monitor (failing TimeoutError)).1 = demo_monitor.
Proof.
  refine (initialize_failure_atomic demo_monitor (failing TimeoutError)
            (ApiError "The device 10.0.0.2 is not responding") _).
  reflexivity.
Defined.

Lemma create_then_down_update_witness :
  async_update demo_created (failing TimeoutError)
    = (demo_created,
       Raise (ApiError "The device 10.0.0.2 is not responding")).
Proof.
  refine (create_then_down_update (answering 200 demo_config)
            (failing TimeoutError)
            {| opt_host := "10.0.0.2"; opt_auth := None |}
            demo_created _ _).
  - reflexivity.
  - apply failing_down.
Defined.

Lemma create_unauthorized_version_unset_witness :
  ∃ instance,
    create (failing (ClientResponseError 401))
      {| opt_host := "10.0.0.2"; opt_auth := None |} = Ok instance ∧
    auth_enabled instance = JBool true ∧
    software_version instance = Raise AttributeError.
Proof.
  refine (create_unauthorized_version_unset
            (failing (ClientResponseError 401))
            {| opt_host := "10.0.0.2"; opt_auth := None |} _).
  reflexivity.
Defined.

Lemma request_returns_only_200_witness :
  answering 200 JNull "get" "http://10.0.0.2/values"
    = Ok {| resp_status := 200; resp_json := Ok JNull |} ∧
  resp_status {| resp_status := 200; resp_json := Ok (@JNull Z) |} = 200.
Proof.
  refine (request_returns_only_200 demo_monitor (answering 200 JNull)
            "get" "http://10.0.0.2/values"
            {| resp_status := 200; resp_json := Ok JNull |} _).
  reflexivity.
Defined.

Lemma parsed_keys_come_from_readings_witness :
  "pms_p1" ∈ RENAME_KEY_MAP.*2 ∨
  (str_lower "pms_p1" = "pms_p1" ∧
   ∃ item, item ∈ demo_values ∧ reading_key item = Some "pms_p1").
Proof.
  refine (parsed_keys_come_from_readings (JList demo_values) demo_values
            demo_normalized "pms_p1" 40000 _ _ _).
  - reflexivity.
  - evaluated.
  - vm_compute. reflexivity.
Defined.

Lemma legacy_reading_converted_then_moved_witness :
  ∃ result,
    _parse_sensor_data (JList demo_values) = Ok result ∧
    result !! "temperature" = None ∧
    result !! "dht22_temperature" = Some 7000.
Proof.
  refine (legacy_reading_converted_then_moved
            [reading "PMS_P1" (JStr "40"); reading "PMS_P2" (JStr "20");
             reading "BME280_pressure" (JStr "101325")]
            (reading "temperature" (JInt 7))
            [reading "bme280_pressure" (JInt 99000)]
            "temperature" "dht22_temperature" 7000 _ _ _ _ _).
  - exact demo_table_ok.
  - decided.
  - exact demo_values_readings.
  - vm_compute. reflexivity.
  - repeat constructor. vm_compute. discriminate.
Defined.

Lemma readings_pass_through_witness :
  demo_collected !! "pms_p1" = VFloat <$> demo_parsed !! "pms_p1".
Proof.
  refine (readings_pass_through (demo_payload (JList demo_values))
            demo_parsed demo_collected "pms_p1" _ _ _ _).
  - evaluated.
  - evaluated.
  - discriminate.
  - decided.
Defined.

Lemma uptime_converted_outside_try_witness :
  (async_update demo_monitor
     (answering 200
        (JDict [("software_version", JStr "NAMF-2020-36");
                ("uptime", JNull); ("sensordatavalues", JList [])]))).2
    = Raise TypeError.
Proof.
  refine (uptime_converted_outside_try demo_monitor
            (answering 200
               (JDict [("software_version", JStr "NAMF-2020-36");
                       ("uptime", JNull); ("sensordatavalues", JList [])]))
            _ [("software_version", JStr "NAMF-2020-36");
               ("uptime", JNull); ("sensordatavalues", JList [])]
            (JStr "NAMF-2020-36") ∅ JNull _ _ _ _).
  - by eapply obtains_fresh.
  - reflexivity.
  - reflexivity.
  - reflexivity.
Defined.

Lemma update_ok_all_readings_witness :
  ∃ entries values items,
    _last_data demo_first.1 = JDict entries ∧
    dict_get entries "sensordatavalues" = Some values ∧
    py_iter values = Ok items ∧
    Forall is_reading items.
Proof.
  refine (update_ok_all_readings demo_monitor
            (answering 200 (demo_payload (JList demo_values)))
            demo_first.1 demo_sensors _).
  vm_compute. reflexivity.
Defined.

Lemma initialize_requires_auth_flag_witness :
  initialize demo_monitor
      (answering 200 (JDict [("SOFTWARE_VERSION", JStr "NAMF-2020-36")]))
    = (demo_monitor, Raise (KeyError "www_basicauth_enabled")).
Proof.
  refine (proj1 (initialize_requires_auth_flag demo_monitor
                   (answering 200
                      (JDict [("SOFTWARE_VERSION", JStr "NAMF-2020-36")]))
                   {| resp_status := 200;
                      resp_json :=
                        Ok (JDict [("SOFTWARE_VERSION",
                                    JStr "NAMF-2020-36")]) |}
                   (JDict [("SOFTWARE_VERSION", JStr "NAMF-2020-36")])
                   _ _ _) _ _ _); reflexivity.
Defined.

Lemma every_reading_has_an_entry_witness :
  ∃ result, _parse_sensor_data (JList demo_values) = Ok result ∧
            is_Some (result !! "bme280_pressure").
Proof.
  refine (every_reading_has_an_entry demo_values
            (reading "BME280_pressure" (JStr "101325"))
            "bme280_pressure" _ _ _ _ _).
  - exact demo_values_readings.
  - unfold demo_values. rewrite !elem_of_cons. tauto.
  - vm_compute. reflexivity.
  - decided.
  - decided.
Defined.

End Examples.
